(** * TACS solid constitutive model and element-model defaults

    A shallow embedding of [TACSSolidConstitutive] (the 3-D solid material
    law) and of the default methods of [TACSElementModel], together with the
    properties the specification states about them.

    Conventions of the embedding.
    - [TacsScalar] is the build-time scalar type of TACS (double or complex).
      The code only ever adds and multiplies scalars and writes the literal
      [0.0], so the embedding is generic in a structure with exactly these
      three operations and assumes no algebraic law about them.  Instances
      are given for IEEE doubles (the default real build) and for the real
      numbers (the idealised arithmetic in which derivatives are stated).
    - a C array argument is a [list]; an access outside the list is
      undefined behaviour and makes the whole call undefined ([None]).
      A pointer the code tests against NULL is an [option (list _)].
      Distinct array arguments are assumed not to overlap.
    - an [int] is a [Z]: the code only compares its integers with 0 and 1
      and copies them.
    - a member function is a computation over the instance: it receives the
      object and returns its result, the final contents of the arrays it
      was given to write, and the object as it leaves it. *)

From Stdlib Require Import ZArith Lia PrimFloat Reals Lra.
From stdpp Require Import base option list.

Local Open Scope Z_scope.

(** ** Scalars *)

Class Scalar : Type := {
  TacsScalar : Type;
  tzero : TacsScalar;
  tadd : TacsScalar → TacsScalar → TacsScalar;
  tmul : TacsScalar → TacsScalar → TacsScalar }.

Declare Scope tacs_scope.
Delimit Scope tacs_scope with T.

(** [const double pt[]], [const double time]. *)
Definition double : Type := PrimFloat.float.

(** ** Arrays and undefined behaviour *)

Module Mem.
Section Mem.
Context {A : Type}.

(** [a[i]] as an rvalue. *)
Definition load (a : list A) (i : nat) : option A := a !! i.

(** [a[i] = v], where evaluating [v] may itself be undefined. *)
Definition store (a : list A) (i : nat) (v : option A) : option (list A) :=
  x ← v;
  if decide (i < length a)%nat then Some (<[i:=x]> a) else None.

(** The effect on [a] of a callee that writes [f 0 .. f (n-1)] into
    [a[0] .. a[n-1]]. *)
Definition out_array (n : nat) (f : nat → A) (a : list A) : option (list A) :=
  if decide (n ≤ length a)%nat then Some (map f (seq 0 n) ++ drop n a) else None.

(** Lift a binary operation to operands whose evaluation may be
    undefined; the left operand is evaluated first. *)
Definition lift2 (op : A → A → A) (x y : option A) : option A :=
  a ← x; b ← y; Some (op a b).
End Mem.
End Mem.

Notation "a .[ i ]" := (Mem.load a i%nat)
  (at level 1, left associativity, format "a .[ i ]") : tacs_scope.
Notation "x + y" := (Mem.lift2 tadd x y) : tacs_scope.
Notation "x * y" := (Mem.lift2 tmul x y) : tacs_scope.
Notation "'#0.0'" := (Some tzero) : tacs_scope.

(** ** The material-property source *)

Section Constitutive.
Context `{Scalar}.

(** Modelled from the spec: [TACSMaterialProperties] is declared and
    defined outside the files at hand; only the calls made on it are
    visible.  Each method is taken as a parameter.  A method that fills an
    output array is given by the value it writes at each index; the
    callers size these arrays 21 (packed symmetric 6x6 stiffness), 6
    (thermal strain, stress sensitivity) and 3 (packed symmetric 2x2
    conductivity).  The failure criterion reads a 6-entry stress. *)
Record TACSMaterialProperties : Type := {
  getDensity : TacsScalar;
  getSpecificHeat : TacsScalar;
  evalTangentStiffness3D : nat → TacsScalar;
  evalThermalStrain3D : nat → TacsScalar;
  evalTangentHeatFlux2D : nat → TacsScalar;
  vonMisesFailure3D : list TacsScalar → TacsScalar;
  vonMisesFailure3DStressSens :
    list TacsScalar → TacsScalar * (nat → TacsScalar) }.

(** ** The instance *)

Record TACSSolidConstitutive : Type := {
  properties : option TACSMaterialProperties;
  t : TacsScalar;
  tNum : Z;
  tlb : TacsScalar;
  tub : TacsScalar }.

(** The constructor (reference counting of [props] is not represented). *)
Definition new_TACSSolidConstitutive (props : option TACSMaterialProperties)
    (_t : TacsScalar) (_tNum : Z) (_tlb _tub : TacsScalar)
    : TACSSolidConstitutive :=
  {| properties := props; t := _t; tNum := _tNum; tlb := _tlb; tub := _tub |}.

(** ** Member functions as computations over the instance *)

Definition Method (A : Type) : Type :=
  TACSSolidConstitutive → option (A * TACSSolidConstitutive).

Definition ret {A} (a : A) : Method A := λ self, Some (a, self).

Definition bind {A B} (m : Method A) (k : A → Method B) : Method B :=
  λ self, match m self with
          | Some (a, self') => k a self'
          | None => None
          end.

(** [this]: read the object. *)
Definition this : Method TACSSolidConstitutive := λ self, Some (self, self).

(** [t = v;] *)
Definition assign_t (v : TacsScalar) : Method unit :=
  λ self, Some (tt, {| properties := properties self; t := v;
                       tNum := tNum self; tlb := tlb self;
                       tub := tub self |}).

(** A memory operation inside a member function. *)
Definition defined {A} (o : option A) : Method A :=
  λ self, match o with Some a => Some (a, self) | None => None end.

(** A local array [TacsScalar C[n];].  Its initial contents are
    indeterminate; every local array of the code is completely filled by
    a callee before it is read, so the placeholder is never observed
    (lemma [out_array_local]). *)
Definition local (n : nat) : list TacsScalar := replicate n tzero.

End Constitutive.

Declare Scope method_scope.
Delimit Scope method_scope with M.
Notation "x <- m ;; k" := (bind m (λ x, k))
  (at level 100, m at next level, right associativity) : method_scope.
Notation "m ;; k" := (bind m (λ _, k))
  (at level 100, right associativity) : method_scope.

(** ** [TACSSolidConstitutive]: the member functions *)

Section Methods.
Context `{Scalar}.

Definition NUM_STRESSES : Z := 6.

Definition getNumStresses : Method Z := ret NUM_STRESSES.

(** Retrieve the global design variable numbers. *)
Definition getDesignVarNums (elemIndex dvLen : Z) (dvNums : option (list Z))
    : Method (Z * option (list Z)) :=
  (self <- this;;
   if decide (tNum self >= 0) then
     dvNums <- match dvNums with
               | Some a =>
                   if decide (dvLen >= 1) then
                     a <- defined (Mem.store a 0 (Some (tNum self)));;
                     ret (Some a)
                   else ret dvNums
               | None => ret dvNums
               end;;
     ret (1, dvNums)
   else ret (0, dvNums))%M.

(** Set the element design variable from the design vector. *)
Definition setDesignVars (elemIndex dvLen : Z) (dvs : list TacsScalar)
    : Method unit :=
  (self <- this;;
   if decide (tNum self >= 0 ∧ dvLen >= 1) then
     v <- defined (dvs.[0])%T;;
     assign_t v
   else ret tt)%M.

(** Get the element design variable values. *)
Definition getDesignVars (elemIndex dvLen : Z) (dvs : list TacsScalar)
    : Method (list TacsScalar) :=
  (self <- this;;
   if decide (tNum self >= 0 ∧ dvLen >= 1) then
     defined (Mem.store dvs 0 (Some (t self)))
   else ret dvs)%M.

(** Get the lower and upper bounds for the design variable values. *)
Definition getDesignVarRange (elemIndex dvLen : Z)
    (lb ub : option (list TacsScalar))
    : Method (option (list TacsScalar) * option (list TacsScalar)) :=
  (self <- this;;
   if decide (tNum self >= 0 ∧ dvLen >= 1) then
     lb <- match lb with
           | Some a => a <- defined (Mem.store a 0 (Some (tlb self)));;
                       ret (Some a)
           | None => ret None
           end;;
     ub <- match ub with
           | Some a => a <- defined (Mem.store a 0 (Some (tub self)));;
                       ret (Some a)
           | None => ret None
           end;;
     ret (lb, ub)
   else ret (lb, ub))%M.

(** Evaluate the material density. *)
Definition evalDensity (elemIndex : Z) (pt : list double)
    (X : list TacsScalar) : Method TacsScalar :=
  (self <- this;;
   match properties self with
   | Some props => ret (tmul (t self) (getDensity props))
   | None => ret tzero
   end)%M.

(** Evaluate the specific heat. *)
Definition evalSpecificHeat (elemIndex : Z) (pt : list double)
    (X : list TacsScalar) : Method TacsScalar :=
  (self <- this;;
   match properties self with
   | Some props => ret (tmul (t self) (getSpecificHeat props))
   | None => ret tzero
   end)%M.

(** Evaluate the stress. *)
Definition evalStress (elemIndex : Z) (pt : list double)
    (X e s : list TacsScalar) : Method (list TacsScalar) :=
  (self <- this;;
   let C := local 21 in
   match properties self with
   | Some props =>
     C <- defined (Mem.out_array 21 (evalTangentStiffness3D props) C);;
     s <- defined (Mem.store s 0 (C.[0]*e.[0] + C.[1]*e.[1]  + C.[2]*e.[2]  + C.[3]*e.[3]  + C.[4]*e.[4]  + C.[5]*e.[5])%T);;
     s <- defined (Mem.store s 1 (C.[1]*e.[0] + C.[6]*e.[1]  + C.[7]*e.[2]  + C.[8]*e.[3]  + C.[9]*e.[4]  + C.[10]*e.[5])%T);;
     s <- defined (Mem.store s 2 (C.[2]*e.[0] + C.[7]*e.[1]  + C.[11]*e.[2] + C.[12]*e.[3] + C.[13]*e.[4] + C.[14]*e.[5])%T);;
     s <- defined (Mem.store s 3 (C.[3]*e.[0] + C.[8]*e.[1]  + C.[12]*e.[2] + C.[15]*e.[3] + C.[16]*e.[4] + C.[17]*e.[5])%T);;
     s <- defined (Mem.store s 4 (C.[4]*e.[0] + C.[9]*e.[1]  + C.[13]*e.[2] + C.[16]*e.[3] + C.[18]*e.[4] + C.[19]*e.[5])%T);;
     s <- defined (Mem.store s 5 (C.[5]*e.[0] + C.[10]*e.[1] + C.[14]*e.[2] + C.[17]*e.[3] + C.[19]*e.[4] + C.[20]*e.[5])%T);;
     ret s
   | None =>
     s <- defined (Mem.store s 5 #0.0%T);;
     s <- defined (Mem.store s 4 #0.0%T);;
     s <- defined (Mem.store s 3 #0.0%T);;
     s <- defined (Mem.store s 2 #0.0%T);;
     s <- defined (Mem.store s 1 #0.0%T);;
     s <- defined (Mem.store s 0 #0.0%T);;
     ret s
   end)%M.

(** Evaluate the tangent stiffness. *)
Definition evalTangentStiffness (elemIndex : Z) (pt : list double)
    (X C : list TacsScalar) : Method (list TacsScalar) :=
  (self <- this;;
   match properties self with
   | Some props =>
     C <- defined (Mem.out_array 21 (evalTangentStiffness3D props) C);;
     C <- defined (Mem.store C 0 (C.[0] * Some (t self))%T);;
     C <- defined (Mem.store C 1 (C.[1] * Some (t self))%T);;
     C <- defined (Mem.store C 2 (C.[2] * Some (t self))%T);;
     C <- defined (Mem.store C 3 (C.[3] * Some (t self))%T);;
     C <- defined (Mem.store C 4 (C.[4] * Some (t self))%T);;
     C <- defined (Mem.store C 5 (C.[5] * Some (t self))%T);;
     ret C
   | None =>
     C <- defined (Mem.store C 5 #0.0%T);;
     C <- defined (Mem.store C 4 #0.0%T);;
     C <- defined (Mem.store C 3 #0.0%T);;
     C <- defined (Mem.store C 2 #0.0%T);;
     C <- defined (Mem.store C 1 #0.0%T);;
     C <- defined (Mem.store C 0 #0.0%T);;
     ret C
   end)%M.

(** Evaluate the thermal strain. *)
Definition evalThermalStrain (elemIndex : Z) (pt : list double)
    (X : list TacsScalar) (theta : TacsScalar) (e : list TacsScalar)
    : Method (list TacsScalar) :=
  (self <- this;;
   match properties self with
   | Some props =>
     e <- defined (Mem.out_array 6 (evalThermalStrain3D props) e);;
     e <- defined (Mem.store e 0 (e.[0] * Some theta)%T);;
     e <- defined (Mem.store e 1 (e.[1] * Some theta)%T);;
     e <- defined (Mem.store e 2 (e.[2] * Some theta)%T);;
     e <- defined (Mem.store e 3 (e.[3] * Some theta)%T);;
     e <- defined (Mem.store e 4 (e.[4] * Some theta)%T);;
     e <- defined (Mem.store e 5 (e.[5] * Some theta)%T);;
     ret e
   | None =>
     e <- defined (Mem.store e 5 #0.0%T);;
     e <- defined (Mem.store e 4 #0.0%T);;
     e <- defined (Mem.store e 3 #0.0%T);;
     e <- defined (Mem.store e 2 #0.0%T);;
     e <- defined (Mem.store e 1 #0.0%T);;
     e <- defined (Mem.store e 0 #0.0%T);;
     ret e
   end)%M.

(** Evaluate the heat flux, given the thermal gradient. *)
Definition evalHeatFlux (elemIndex : Z) (pt : list double)
    (X grad flux : list TacsScalar) : Method (list TacsScalar) :=
  (self <- this;;
   match properties self with
   | Some props =>
     let C := local 3 in
     C <- defined (Mem.out_array 3 (evalTangentHeatFlux2D props) C);;
     flux <- defined (Mem.store flux 0 (C.[0]*grad.[0] + C.[1]*grad.[1])%T);;
     flux <- defined (Mem.store flux 1 (C.[1]*grad.[1] + C.[2]*grad.[2])%T);;
     ret flux
   | None => ret flux
   end)%M.

(** Evaluate the tangent of the heat flux.  The array declared in the
    branch has the name of the parameter and hides it: the callee fills
    the inner array, which dies at the end of the block. *)
Definition evalTangentHeatFlux (elemIndex : Z) (pt : list double)
    (X C : list TacsScalar) : Method (list TacsScalar) :=
  (self <- this;;
   match properties self with
   | Some props =>
     let C_inner := local 3 in
     C_inner <- defined (Mem.out_array 3 (evalTangentHeatFlux2D props) C_inner);;
     ret C
   | None => ret C
   end)%M.

(** Evaluate the material failure index. *)
Definition evalFailure (elemIndex : Z) (pt : list double)
    (X e : list TacsScalar) : Method TacsScalar :=
  (self <- this;;
   match properties self with
   | Some props =>
     let C := local 21 in
     C <- defined (Mem.out_array 21 (evalTangentStiffness3D props) C);;
     let s := local 6 in
     s <- defined (Mem.store s 0 (C.[0]*e.[0] + C.[1]*e.[1]  + C.[2]*e.[2]  + C.[3]*e.[3]  + C.[4]*e.[4]  + C.[5]*e.[5])%T);;
     s <- defined (Mem.store s 1 (C.[1]*e.[0] + C.[6]*e.[1]  + C.[7]*e.[2]  + C.[8]*e.[3]  + C.[9]*e.[4]  + C.[10]*e.[5])%T);;
     s <- defined (Mem.store s 2 (C.[2]*e.[0] + C.[7]*e.[1]  + C.[11]*e.[2] + C.[12]*e.[3] + C.[13]*e.[4] + C.[14]*e.[5])%T);;
     s <- defined (Mem.store s 3 (C.[3]*e.[0] + C.[8]*e.[1]  + C.[12]*e.[2] + C.[15]*e.[3] + C.[16]*e.[4] + C.[17]*e.[5])%T);;
     s <- defined (Mem.store s 4 (C.[4]*e.[0] + C.[9]*e.[1]  + C.[13]*e.[2] + C.[16]*e.[3] + C.[18]*e.[4] + C.[19]*e.[5])%T);;
     s <- defined (Mem.store s 5 (C.[5]*e.[0] + C.[10]*e.[1] + C.[14]*e.[2] + C.[17]*e.[3] + C.[19]*e.[4] + C.[20]*e.[5])%T);;
     ret (vonMisesFailure3D props s)
   | None => ret tzero
   end)%M.

(** Evaluate the derivative of the failure criteria w.r.t. strain. *)
Definition evalFailureStrainSens (elemIndex : Z) (pt : list double)
    (X e dfde : list TacsScalar) : Method (TacsScalar * list TacsScalar) :=
  (self <- this;;
   match properties self with
   | Some props =>
     let C := local 21 in
     C <- defined (Mem.out_array 21 (evalTangentStiffness3D props) C);;
     let s := local 6 in
     s <- defined (Mem.store s 0 (C.[0]*e.[0] + C.[1]*e.[1]  + C.[2]*e.[2]  + C.[3]*e.[3]  + C.[4]*e.[4]  + C.[5]*e.[5])%T);;
     s <- defined (Mem.store s 1 (C.[1]*e.[0] + C.[6]*e.[1]  + C.[7]*e.[2]  + C.[8]*e.[3]  + C.[9]*e.[4]  + C.[10]*e.[5])%T);;
     s <- defined (Mem.store s 2 (C.[2]*e.[0] + C.[7]*e.[1]  + C.[11]*e.[2] + C.[12]*e.[3] + C.[13]*e.[4] + C.[14]*e.[5])%T);;
     s <- defined (Mem.store s 3 (C.[3]*e.[0] + C.[8]*e.[1]  + C.[12]*e.[2] + C.[15]*e.[3] + C.[16]*e.[4] + C.[17]*e.[5])%T);;
     s <- defined (Mem.store s 4 (C.[4]*e.[0] + C.[9]*e.[1]  + C.[13]*e.[2] + C.[16]*e.[3] + C.[18]*e.[4] + C.[19]*e.[5])%T);;
     s <- defined (Mem.store s 5 (C.[5]*e.[0] + C.[10]*e.[1] + C.[14]*e.[2] + C.[17]*e.[3] + C.[19]*e.[4] + C.[20]*e.[5])%T);;
     let sens := local 6 in
     let '(fail, sens_out) := vonMisesFailure3DStressSens props s in
     sens <- defined (Mem.out_array 6 sens_out sens);;
     dfde <- defined (Mem.store dfde 0 (C.[0]*sens.[0] + C.[1]*sens.[1]  + C.[2]*sens.[2]  + C.[3]*sens.[3]  + C.[4]*sens.[4]  + C.[5]*sens.[5])%T);;
     dfde <- defined (Mem.store dfde 1 (C.[1]*sens.[0] + C.[6]*sens.[1]  + C.[7]*sens.[2]  + C.[8]*sens.[3]  + C.[9]*sens.[4]  + C.[10]*sens.[5])%T);;
     dfde <- defined (Mem.store dfde 2 (C.[2]*sens.[0] + C.[7]*sens.[1]  + C.[11]*sens.[2] + C.[12]*sens.[3] + C.[13]*sens.[4] + C.[14]*sens.[5])%T);;
     dfde <- defined (Mem.store dfde 3 (C.[3]*sens.[0] + C.[8]*sens.[1]  + C.[12]*sens.[2] + C.[15]*sens.[3] + C.[16]*sens.[4] + C.[17]*sens.[5])%T);;
     dfde <- defined (Mem.store dfde 4 (C.[4]*sens.[0] + C.[9]*sens.[1]  + C.[13]*sens.[2] + C.[16]*sens.[3] + C.[18]*sens.[4] + C.[19]*sens.[5])%T);;
     dfde <- defined (Mem.store dfde 5 (C.[5]*sens.[0] + C.[10]*sens.[1] + C.[14]*sens.[2] + C.[17]*sens.[3] + C.[19]*sens.[4] + C.[20]*sens.[5])%T);;
     ret (fail, dfde)
   | None => ret (tzero, dfde)
   end)%M.

End Methods.

(** ** [TACSElementModel]: the default method bodies

    The class has no data members; a default body is a function of its
    arguments that returns its result and the final contents of the arrays
    it was given to write. *)

Module TACSElementModel.
Section Defaults.
Context `{Scalar}.

Definition getDesignVarNums (elemIndex dvLen : Z) (dvNums : option (list Z))
    : Z * option (list Z) :=
  (0, dvNums).

Definition setDesignVars (elemIndex dvLen : Z) (dvs : list TacsScalar)
    : unit := tt.

Definition getDesignVars (elemIndex dvLen : Z) (dvs : list TacsScalar)
    : list TacsScalar := dvs.

Definition getDesignVarRange (elemIndex dvLen : Z)
    (lowerBound upperBound : list TacsScalar)
    : list TacsScalar * list TacsScalar := (lowerBound, upperBound).

Definition evalPointQuantity (elemIndex quantityType : Z) (time : double)
    (n : Z) (pt : list double) (X Xd Ut Ux : list TacsScalar)
    (quantity : option (list TacsScalar))
    : Z * option (list TacsScalar) :=
  (0, quantity).

End Defaults.
End TACSElementModel.

(** ** Scalar instances *)

(** The real build: [typedef double TacsScalar]. *)
#[export] Instance double_scalar : Scalar := {|
  TacsScalar := PrimFloat.float;
  tzero := 0%float;
  tadd := PrimFloat.add;
  tmul := PrimFloat.mul |}.

(** Exact real arithmetic. *)
Definition real_scalar : Scalar := {|
  TacsScalar := R;
  tzero := 0%R;
  tadd := Rplus;
  tmul := Rmult |}.

(** ** The stiffness as a linear map, after the specification

    The 21 entries are the upper triangle of a symmetric 6x6 matrix stored
    row by row; [voigt i j] is the place of the matrix entry (i, j).  The
    stress is the matrix applied to the strain, each row summed from left
    to right. *)

Section Voigt.
Context `{Scalar}.

Definition voigt (i j : nat) : nat :=
  let r := Nat.min i j in
  let c := Nat.max i j in
  (6 * r - r * (r - 1) / 2 + (c - r))%nat.

Definition sum6 (f : nat → TacsScalar) : TacsScalar :=
  tadd (tadd (tadd (tadd (tadd (f 0%nat) (f 1%nat)) (f 2%nat)) (f 3%nat))
             (f 4%nat)) (f 5%nat).

(** Entry [j] of an array, for use where the array is known to be long
    enough. *)
Definition entry (a : list TacsScalar) (j : nat) : TacsScalar :=
  default tzero (a !! j).

(** Row [i] of the symmetric matrix [C] applied to [v]. *)
Definition symm_row (C v : nat → TacsScalar) (i : nat) : TacsScalar :=
  sum6 (λ j, tmul (C (voigt i j)) (v j)).

(** The 6-entry vector [C · v]. *)
Definition symm_apply (C v : nat → TacsScalar) : list TacsScalar :=
  map (symm_row C v) (seq 0 6).

(** Overwrite the first [length w] entries of [a] by [w]. *)
Definition overwrite (w a : list TacsScalar) : list TacsScalar :=
  w ++ drop (length w) a.

End Voigt.

(** ** The public interface as a set of calls

    One constructor per member function, carrying its arguments; [invoke]
    dispatches a call on an instance.  [Outcome] collects what a call hands
    back: the return value and the final contents of its output arrays. *)

Section Interface.
Context `{Scalar}.

Inductive Call : Type :=
| call_getNumStresses
| call_getDesignVarNums (elemIndex dvLen : Z) (dvNums : option (list Z))
| call_setDesignVars (elemIndex dvLen : Z) (dvs : list TacsScalar)
| call_getDesignVars (elemIndex dvLen : Z) (dvs : list TacsScalar)
| call_getDesignVarRange (elemIndex dvLen : Z)
    (lb ub : option (list TacsScalar))
| call_evalDensity (elemIndex : Z) (pt : list double) (X : list TacsScalar)
| call_evalSpecificHeat (elemIndex : Z) (pt : list double)
    (X : list TacsScalar)
| call_evalStress (elemIndex : Z) (pt : list double) (X e s : list TacsScalar)
| call_evalTangentStiffness (elemIndex : Z) (pt : list double)
    (X C : list TacsScalar)
| call_evalThermalStrain (elemIndex : Z) (pt : list double)
    (X : list TacsScalar) (theta : TacsScalar) (e : list TacsScalar)
| call_evalHeatFlux (elemIndex : Z) (pt : list double)
    (X grad flux : list TacsScalar)
| call_evalTangentHeatFlux (elemIndex : Z) (pt : list double)
    (X C : list TacsScalar)
| call_evalFailure (elemIndex : Z) (pt : list double) (X e : list TacsScalar)
| call_evalFailureStrainSens (elemIndex : Z) (pt : list double)
    (X e dfde : list TacsScalar).

Inductive Outcome : Type :=
| out_void
| out_int (r : Z)
| out_nums (r : Z) (dvNums : option (list Z))
| out_scalar (r : TacsScalar)
| out_buffer (a : list TacsScalar)
| out_range (lb ub : option (list TacsScalar))
| out_scalar_buffer (r : TacsScalar) (a : list TacsScalar).

Definition invoke (c : Call) : Method Outcome :=
  (match c with
   | call_getNumStresses => r <- getNumStresses;; ret (out_int r)
   | call_getDesignVarNums i n a =>
       r <- getDesignVarNums i n a;; ret (out_nums r.1 r.2)
   | call_setDesignVars i n dvs => setDesignVars i n dvs;; ret out_void
   | call_getDesignVars i n dvs =>
       r <- getDesignVars i n dvs;; ret (out_buffer r)
   | call_getDesignVarRange i n lb ub =>
       r <- getDesignVarRange i n lb ub;; ret (out_range r.1 r.2)
   | call_evalDensity i pt X => r <- evalDensity i pt X;; ret (out_scalar r)
   | call_evalSpecificHeat i pt X =>
       r <- evalSpecificHeat i pt X;; ret (out_scalar r)
   | call_evalStress i pt X e s =>
       r <- evalStress i pt X e s;; ret (out_buffer r)
   | call_evalTangentStiffness i pt X C =>
       r <- evalTangentStiffness i pt X C;; ret (out_buffer r)
   | call_evalThermalStrain i pt X theta e =>
       r <- evalThermalStrain i pt X theta e;; ret (out_buffer r)
   | call_evalHeatFlux i pt X grad flux =>
       r <- evalHeatFlux i pt X grad flux;; ret (out_buffer r)
   | call_evalTangentHeatFlux i pt X C =>
       r <- evalTangentHeatFlux i pt X C;; ret (out_buffer r)
   | call_evalFailure i pt X e => r <- evalFailure i pt X e;; ret (out_scalar r)
   | call_evalFailureStrainSens i pt X e dfde =>
       r <- evalFailureStrainSens i pt X e dfde;;
       ret (out_scalar_buffer r.1 r.2)
   end)%M.

(** The evaluation entry points of the material law. *)
Definition is_evaluation (c : Call) : bool :=
  match c with
  | call_evalDensity _ _ _ | call_evalSpecificHeat _ _ _
  | call_evalStress _ _ _ _ _ | call_evalTangentStiffness _ _ _ _
  | call_evalThermalStrain _ _ _ _ _ | call_evalHeatFlux _ _ _ _ _
  | call_evalFailure _ _ _ _ | call_evalFailureStrainSens _ _ _ _ _ => true
  | _ => false
  end.

Definition is_setDesignVars (c : Call) : bool :=
  match c with call_setDesignVars _ _ _ => true | _ => false end.

(** A computation that hands the object back as it received it. *)
Definition readonly {A} (m : Method A) : Prop :=
  ∀ self r self', m self = Some (r, self') → self' = self.

(** Two object states that agree on every field other than [t]. *)
Definition same_but_t (self self' : TACSSolidConstitutive) : Prop :=
  properties self' = properties self ∧ tNum self' = tNum self ∧
  tlb self' = tlb self ∧ tub self' = tub self.

(** The tangent stiffness as [evalTangentStiffness] leaves it: the entry
    the property source wrote at [k], times [t] for [k < 6]. *)
Definition scaled_leading (f : nat → TacsScalar) (th : TacsScalar) (k : nat)
    : TacsScalar :=
  if (k <? 6)%nat then tmul (f k) th else f k.

End Interface.

(** ** Concrete instances used in the examples *)

Module Demo.

(** A property source in double precision whose stiffness has
    [C[0] = C[6] = 1] (the (0,0) and (1,1) matrix entries) and is zero
    elsewhere; the failure criterion is the first stress component. *)
Definition stiffness (k : nat) : PrimFloat.float :=
  match k with
  | 0%nat | 6%nat => 1%float
  | _ => 0%float
  end.

Definition props : TACSMaterialProperties := {|
  getDensity := 3%float;
  getSpecificHeat := 5%float;
  evalTangentStiffness3D := stiffness;
  evalThermalStrain3D := λ _, 1%float;
  evalTangentHeatFlux2D := λ _, 1%float;
  vonMisesFailure3D := λ s, entry s 0;
  vonMisesFailure3DStressSens :=
    λ s, (entry s 0, λ k, match k with 0%nat => 1%float | _ => 0%float end) |}.

(** Thickness 2, owning design variable number 7, bounds [1, 4]. *)
Definition solid : TACSSolidConstitutive :=
  new_TACSSolidConstitutive (Some props) 2%float 7 1%float 4%float.

(** The same without a property source. *)
Definition bare : TACSSolidConstitutive :=
  new_TACSSolidConstitutive None 2%float 7 1%float 4%float.

(** An instance that owns no design variable. *)
Definition fixed : TACSSolidConstitutive :=
  new_TACSSolidConstitutive (Some props) 2%float (-1) 1%float 4%float.

Definition strain : list (@TacsScalar double_scalar) :=
  [1%float; 1%float; 0%float; 0%float; 0%float; 0%float].

(** [props] with the (1,1) stiffness entry [C[6]] cleared, and an instance
    on it. *)
Definition stiffness_less_6 (k : nat) : PrimFloat.float :=
  match k with
  | 0%nat => 1%float
  | _ => 0%float
  end.

Definition props_less_6 : TACSMaterialProperties := {|
  getDensity := getDensity props;
  getSpecificHeat := getSpecificHeat props;
  evalTangentStiffness3D := stiffness_less_6;
  evalThermalStrain3D := evalThermalStrain3D props;
  evalTangentHeatFlux2D := evalTangentHeatFlux2D props;
  vonMisesFailure3D := vonMisesFailure3D props;
  vonMisesFailure3DStressSens := vonMisesFailure3DStressSens props |}.

Definition solid_less_6 : TACSSolidConstitutive :=
  new_TACSSolidConstitutive (Some props_less_6) 2%float 7 1%float 4%float.

(** Arrays with recognisable previous contents. *)
Definition junk (n : nat) : list (@TacsScalar double_scalar) :=
  replicate n 9%float.

End Demo.

(** ** Derivatives, in exact real arithmetic *)

Module Analysis.

(** [s + h·v], entry by entry. *)
Definition axpy (h : R) (v s : list R) : list R :=
  zip_with (λ si vi, (si + h * vi)%R) s v.

(** [g · v] for 6-entry vectors. *)
Definition dot6 (g v : nat → R) : R :=
  @sum6 real_scalar (λ j, (g j * v j)%R).

(** [g] is the gradient of [f] at the 6-entry point [s]: along every
    direction [v] the function [h ↦ f (s + h·v)] has derivative [g · v] at
    [h = 0].  With [v] a unit vector this is the partial derivative. *)
Definition gradient_at (f : list R → R) (s : list R) (g : nat → R) : Prop :=
  ∀ v : list R, length v = 6%nat →
    derivable_pt_lim (λ h, f (axpy h v s)) 0 (dot6 g (@entry real_scalar v)).

(** The failure value as a function of the strain alone. *)
Definition failure_value (self : @TACSSolidConstitutive real_scalar)
    (elemIndex : Z) (pt : list double) (X e : list R) : R :=
  match @evalFailure real_scalar elemIndex pt X e self with
  | Some (f, _) => f
  | None => 0%R
  end.

(** A property source over the reals: identity stiffness on the first two
    components plus a coupling [C[1] = 1]; the failure criterion is the
    quadratic form [s0² + s1²] and its sensitivity [(2 s0, 2 s1, 0, 0, 0, 0)]. *)
Definition stiffness (k : nat) : R :=
  match k with
  | 0%nat | 1%nat | 6%nat => 1%R
  | _ => 0%R
  end.

Definition quad (s : list R) : R :=
  (@entry real_scalar s 0 * @entry real_scalar s 0
   + @entry real_scalar s 1 * @entry real_scalar s 1)%R.

Definition quad_sens (s : list R) (k : nat) : R :=
  match k with
  | 0%nat => (2 * @entry real_scalar s 0)%R
  | 1%nat => (2 * @entry real_scalar s 1)%R
  | _ => 0%R
  end.

Definition props : @TACSMaterialProperties real_scalar := {|
  getDensity := 3%R : @TacsScalar real_scalar;
  getSpecificHeat := 5%R : @TacsScalar real_scalar;
  evalTangentStiffness3D := stiffness : nat → @TacsScalar real_scalar;
  evalThermalStrain3D := (λ _, 1%R) : nat → @TacsScalar real_scalar;
  evalTangentHeatFlux2D := (λ _, 1%R) : nat → @TacsScalar real_scalar;
  vonMisesFailure3D := quad;
  vonMisesFailure3DStressSens := λ s, (quad s, quad_sens s) |}.

Definition solid : @TACSSolidConstitutive real_scalar :=
  @new_TACSSolidConstitutive real_scalar (Some props) 2%R 7 1%R 4%R.

Definition strain : list R := [1%R; 2%R; 0%R; 0%R; 0%R; 0%R].

End Analysis.

(** ** [SolidStiffness]: the legacy orthotropic law

    The class of [SolidStiffness.h].  The member array [TacsScalar C[6]] is
    read at constant indices below 6 only, so it is given by its entries.
    The normal block is the symmetric 3x3 matrix packed in [C]; each shear
    stress is its own modulus times the shear strain. *)

Module SolidStiffness.
Section Law.
Context `{Scalar}.

Definition NUM_STRESSES : Z := 6.

Record SolidStiffness : Type := {
  nvars : Z;
  eNum : Z;
  E : TacsScalar;
  nu : TacsScalar;
  C : nat → TacsScalar;
  G23 : TacsScalar;
  G13 : TacsScalar;
  G12 : TacsScalar;
  rho : TacsScalar }.

(** Return the mass moments. *)
Definition getNumMassMoments : Z := 1.

Definition getPointwiseMass (self : SolidStiffness) (gpt : list double)
    (mass : list TacsScalar) : option (list TacsScalar) :=
  Mem.store mass 0 (Some (rho self)).

Definition calcStress (self : SolidStiffness) (e s : list TacsScalar)
    : option (list TacsScalar) :=
  let C k := Some (C self k) in
  let G23 := Some (G23 self) in
  let G13 := Some (G13 self) in
  let G12 := Some (G12 self) in
  s ← Mem.store s 0 (C 0%nat*e.[0] + C 1%nat*e.[1] + C 2%nat*e.[2])%T;
  s ← Mem.store s 1 (C 1%nat*e.[0] + C 3%nat*e.[1] + C 4%nat*e.[2])%T;
  s ← Mem.store s 2 (C 2%nat*e.[0] + C 4%nat*e.[1] + C 5%nat*e.[2])%T;
  s ← Mem.store s 3 (G23*e.[3])%T;
  s ← Mem.store s 4 (G13*e.[4])%T;
  s ← Mem.store s 5 (G12*e.[5])%T;
  Some s.

(** The same material as a packed symmetric 6x6 stiffness: the normal
    block in the matrix entries (0,0) .. (2,2), the shear moduli on the
    diagonal, zero elsewhere. *)
Definition packed (self : SolidStiffness) (k : nat) : TacsScalar :=
  match k with
  | 0%nat => C self 0
  | 1%nat => C self 1
  | 2%nat => C self 2
  | 6%nat => C self 3
  | 7%nat => C self 4
  | 11%nat => C self 5
  | 15%nat => G23 self
  | 18%nat => G13 self
  | 20%nat => G12 self
  | _ => tzero
  end.

End Law.
End SolidStiffness.

(** ** Further notions used in the statements *)

Section Notions.
Context `{Scalar}.

(** [a'] is [a] with at most its first [n] entries rewritten. *)
Definition confined (n : nat) (a a' : list TacsScalar) : Prop :=
  length a' = length a ∧ drop n a' = drop n a.

(** The calls whose code does not mention the field [t]. *)
Definition ignores_thickness (c : Call) : bool :=
  match c with
  | call_evalStress _ _ _ _ _ | call_evalThermalStrain _ _ _ _ _
  | call_evalHeatFlux _ _ _ _ _ | call_evalTangentHeatFlux _ _ _ _
  | call_evalFailure _ _ _ _ | call_evalFailureStrainSens _ _ _ _ _ => true
  | _ => false
  end.

(** The array a call is given to write, with the number of leading
    entries the call may rewrite, and the array an outcome hands back. *)
Definition window (c : Call) : option (list TacsScalar * nat) :=
  match c with
  | call_getDesignVars _ _ dvs => Some (dvs, 1%nat)
  | call_evalStress _ _ _ _ s => Some (s, 6%nat)
  | call_evalTangentStiffness _ _ _ C => Some (C, 21%nat)
  | call_evalThermalStrain _ _ _ _ e => Some (e, 6%nat)
  | call_evalHeatFlux _ _ _ _ flux => Some (flux, 2%nat)
  | call_evalTangentHeatFlux _ _ _ C => Some (C, 0%nat)
  | call_evalFailureStrainSens _ _ _ _ dfde => Some (dfde, 6%nat)
  | _ => None
  end.

Definition buffer_of (o : Outcome) : option (list TacsScalar) :=
  match o with
  | out_buffer a | out_scalar_buffer _ a => Some a
  | _ => None
  end.

(** The heat flux as [evalHeatFlux] computes it from the packed
    conductivity [K] and the gradient [g]. *)
Definition heat_flux (K g : nat → TacsScalar) : list TacsScalar :=
  [ tadd (tmul (K 0%nat) (g 0%nat)) (tmul (K 1%nat) (g 1%nat));
    tadd (tmul (K 1%nat) (g 1%nat)) (tmul (K 2%nat) (g 2%nat)) ].

End Notions.

(** Further concrete data. *)

Module Samples.

(** The strain with a 1 in place [j] and 0 elsewhere. *)
Definition unit_strain (j : nat) : list R :=
  map (λ k, if (k =? j)%nat then 1%R else 0%R) (seq 0 6).

Definition direction : list R := [0%R; 1%R; 0%R; 0%R; 0%R; 1%R].

(** An orthotropic material over the reals and the instance of the packed
    law that carries the same stiffness. *)
Definition ortho_C (k : nat) : R :=
  match k with
  | 0%nat => 5%R | 1%nat => 1%R | 2%nat => 2%R
  | 3%nat => 6%R | 4%nat => 3%R | _ => 7%R
  end.

Definition ortho : @SolidStiffness.SolidStiffness real_scalar := {|
  SolidStiffness.nvars := 0;
  SolidStiffness.eNum := 0;
  SolidStiffness.E := 70%R : @TacsScalar real_scalar;
  SolidStiffness.nu := 0%R : @TacsScalar real_scalar;
  SolidStiffness.C := ortho_C : nat → @TacsScalar real_scalar;
  SolidStiffness.G23 := 2%R : @TacsScalar real_scalar;
  SolidStiffness.G13 := 3%R : @TacsScalar real_scalar;
  SolidStiffness.G12 := 4%R : @TacsScalar real_scalar;
  SolidStiffness.rho := 1%R : @TacsScalar real_scalar |}.

Definition ortho_props : @TACSMaterialProperties real_scalar := {|
  getDensity := 1%R : @TacsScalar real_scalar;
  getSpecificHeat := 1%R : @TacsScalar real_scalar;
  evalTangentStiffness3D := @SolidStiffness.packed real_scalar ortho;
  evalThermalStrain3D := (λ k, INR k) : nat → @TacsScalar real_scalar;
  evalTangentHeatFlux2D := (λ _, 1%R) : nat → @TacsScalar real_scalar;
  vonMisesFailure3D := Analysis.quad;
  vonMisesFailure3DStressSens :=
    λ s, (Analysis.quad s, Analysis.quad_sens s) |}.

Definition ortho_solid : @TACSSolidConstitutive real_scalar :=
  @new_TACSSolidConstitutive real_scalar (Some ortho_props) 2%R 7 1%R 4%R.

(** The instance [Analysis.solid] with thickness 1. *)
Definition unit_thickness : @TACSSolidConstitutive real_scalar :=
  @new_TACSSolidConstitutive real_scalar (Some Analysis.props) 1%R 7 1%R 4%R.

Definition zeros (n : nat) : list R := replicate n 0%R.

End Samples.

(** ** A sample von Mises property source over the reals

    Concrete data, like [Demo.props] and [Analysis.props]: a property
    source whose failure criterion is the usual von Mises one, the
    equivalent stress over the yield stress [ys], with the sensitivity its
    partial derivatives.  It has no gradient at zero stress. *)

Module VonMises.

Definition ys : R := 2%R.

(** The square of the equivalent stress. *)
Definition q (s : list R) : R :=
  let x := @entry real_scalar s in
  (((x 0%nat - x 1%nat) * (x 0%nat - x 1%nat)
    + (x 0%nat - x 2%nat) * (x 0%nat - x 2%nat)
    + (x 1%nat - x 2%nat) * (x 1%nat - x 2%nat)
    + 6 * (x 3%nat * x 3%nat + x 4%nat * x 4%nat + x 5%nat * x 5%nat))
   / 2)%R.

Definition failure (s : list R) : R := (sqrt (q s) / ys)%R.

(** The partial derivatives of [q]. *)
Definition dq (s : list R) (k : nat) : R :=
  let x := @entry real_scalar s in
  match k with
  | 0%nat => (2 * x 0%nat - x 1%nat - x 2%nat)%R
  | 1%nat => (2 * x 1%nat - x 0%nat - x 2%nat)%R
  | 2%nat => (2 * x 2%nat - x 0%nat - x 1%nat)%R
  | _ => (6 * x k)%R
  end.

Definition sens (s : list R) (k : nat) : R :=
  (dq s k / (2 * sqrt (q s) * ys))%R.

Definition props : @TACSMaterialProperties real_scalar := {|
  getDensity := 3%R : @TacsScalar real_scalar;
  getSpecificHeat := 5%R : @TacsScalar real_scalar;
  evalTangentStiffness3D := Analysis.stiffness : nat → @TacsScalar real_scalar;
  evalThermalStrain3D := (λ _, 1%R) : nat → @TacsScalar real_scalar;
  evalTangentHeatFlux2D := (λ _, 1%R) : nat → @TacsScalar real_scalar;
  vonMisesFailure3D := failure;
  vonMisesFailure3DStressSens := λ s, (failure s, sens s) |}.

Definition solid : @TACSSolidConstitutive real_scalar :=
  @new_TACSSolidConstitutive real_scalar (Some props) 2%R 7 1%R 4%R.

End VonMises.

(** * Properties *)

(** ** Arrays *)

Section MemFacts.
Context {A : Type}.
Implicit Types (a : list A) (x v : A) (i n : nat).

Lemma store_value a i v :
  (i < length a)%nat → Mem.store a i (Some v) = Some (<[i:=v]> a).
Proof. intros Hi. unfold Mem.store. simpl. by rewrite decide_True. Qed.

Lemma store_head x a v : Mem.store (x :: a) 0 (Some v) = Some (v :: a).
Proof. rewrite store_value; [done | simpl; lia]. Qed.

Lemma store_tail x a i v :
  Mem.store (x :: a) (S i) (Some v) = cons x <$> Mem.store a i (Some v).
Proof.
  unfold Mem.store. simpl.
  destruct (decide (i < length a)%nat) as [Hi|Hi].
  - rewrite decide_True by lia. done.
  - rewrite decide_False by lia. done.
Qed.

Lemma store_length a i o a' :
  Mem.store a i o = Some a' → length a' = length a.
Proof.
  unfold Mem.store. destruct o as [v|]; simpl; [|done].
  case_decide; [|done]. intros [= <-]. apply length_insert.
Qed.

Lemma out_array_fits n (f : nat → A) a :
  (n ≤ length a)%nat →
  Mem.out_array n f a = Some (map f (seq 0 n) ++ drop n a).
Proof. intros Hn. unfold Mem.out_array. by rewrite decide_True. Qed.

(** An array of at least six entries, entry by entry. *)
Lemma six_entries a :
  (6 ≤ length a)%nat →
  ∃ x0 x1 x2 x3 x4 x5 r, a = x0 :: x1 :: x2 :: x3 :: x4 :: x5 :: r.
Proof.
  intros Hl.
  do 6 (destruct a as [|? a]; [simpl in Hl; lia|]).
  by repeat eexists.
Qed.

Lemma exactly_six a :
  length a = 6%nat → ∃ x0 x1 x2 x3 x4 x5, a = [x0; x1; x2; x3; x4; x5].
Proof.
  intros Hl. destruct (six_entries a) as (x0&x1&x2&x3&x4&x5&r&->); [lia|].
  destruct r; [|simpl in Hl; lia]. by repeat eexists.
Qed.

End MemFacts.

Section LocalArrays.
Context `{Scalar}.

(** A local array filled completely by a callee holds exactly what the
    callee wrote. *)
Lemma out_array_local n (f : nat → TacsScalar) :
  Mem.out_array n f (local n) = Some (map f (seq 0 n)).
Proof.
  unfold local. rewrite out_array_fits by (rewrite length_replicate; lia).
  rewrite drop_ge by (rewrite length_replicate; lia).
  by rewrite app_nil_r.
Qed.

(** The rows of the packed symmetric matrix, written out. *)
Lemma symm_apply_rows (C v : nat → TacsScalar) :
  symm_apply C v =
  [ sum6 (λ j, tmul (C (nth j [0;1;2;3;4;5] 0)%nat) (v j));
    sum6 (λ j, tmul (C (nth j [1;6;7;8;9;10] 0)%nat) (v j));
    sum6 (λ j, tmul (C (nth j [2;7;11;12;13;14] 0)%nat) (v j));
    sum6 (λ j, tmul (C (nth j [3;8;12;15;16;17] 0)%nat) (v j));
    sum6 (λ j, tmul (C (nth j [4;9;13;16;18;19] 0)%nat) (v j));
    sum6 (λ j, tmul (C (nth j [5;10;14;17;19;20] 0)%nat) (v j)) ].
Proof. reflexivity. Qed.

End LocalArrays.

(** ** What each member function computes *)

Ltac step_method :=
  first [ rewrite out_array_local | rewrite store_head | rewrite store_tail
        | rewrite out_array_fits by (simpl; lia) ].

Ltac run_method :=
  cbv [bind this defined ret assign_t]; simpl;
  repeat (step_method; simpl).

Section Evaluation.
Context `{Scalar}.
Implicit Types (self : TACSSolidConstitutive) (props : TACSMaterialProperties).
Implicit Types (elemIndex : Z) (pt : list double).
Implicit Types (X e s C dfde flux grad : list TacsScalar).

Lemma evalStress_attached self props elemIndex pt X e s :
  properties self = Some props →
  (6 ≤ length e)%nat → (6 ≤ length s)%nat →
  evalStress elemIndex pt X e s self =
  Some (overwrite (symm_apply (evalTangentStiffness3D props) (entry e)) s,
        self).
Proof.
  intros Hp He Hs.
  destruct (six_entries e He) as (e0&e1&e2&e3&e4&e5&re&->).
  destruct (six_entries s Hs) as (s0&s1&s2&s3&s4&s5&rs&->).
  unfold evalStress. run_method. rewrite Hp. run_method.
  reflexivity.
Qed.

Lemma evalStress_detached self elemIndex pt X e s :
  properties self = None → (6 ≤ length s)%nat →
  evalStress elemIndex pt X e s self =
  Some (overwrite (replicate 6 tzero) s, self).
Proof.
  intros Hp Hs.
  destruct (six_entries s Hs) as (s0&s1&s2&s3&s4&s5&rs&->).
  unfold evalStress. run_method. rewrite Hp. run_method.
  reflexivity.
Qed.

Lemma evalTangentStiffness_attached self props elemIndex pt X C :
  properties self = Some props → (21 ≤ length C)%nat →
  evalTangentStiffness elemIndex pt X C self =
  Some (overwrite
          (map (scaled_leading (evalTangentStiffness3D props) (t self))
               (seq 0 21)) C,
        self).
Proof.
  intros Hp HC.
  unfold evalTangentStiffness. run_method. rewrite Hp. run_method.
  reflexivity.
Qed.

Lemma evalTangentStiffness_detached self elemIndex pt X C :
  properties self = None → (6 ≤ length C)%nat →
  evalTangentStiffness elemIndex pt X C self =
  Some (overwrite (replicate 6 tzero) C, self).
Proof.
  intros Hp HC.
  destruct (six_entries C HC) as (c0&c1&c2&c3&c4&c5&rc&->).
  unfold evalTangentStiffness. run_method. rewrite Hp. run_method.
  reflexivity.
Qed.

Lemma evalThermalStrain_detached self elemIndex pt X theta e :
  properties self = None → (6 ≤ length e)%nat →
  evalThermalStrain elemIndex pt X theta e self =
  Some (overwrite (replicate 6 tzero) e, self).
Proof.
  intros Hp He.
  destruct (six_entries e He) as (e0&e1&e2&e3&e4&e5&re&->).
  unfold evalThermalStrain. run_method. rewrite Hp. run_method.
  reflexivity.
Qed.

Lemma evalFailure_attached self props elemIndex pt X e :
  properties self = Some props → (6 ≤ length e)%nat →
  evalFailure elemIndex pt X e self =
  Some (vonMisesFailure3D props
          (symm_apply (evalTangentStiffness3D props) (entry e)),
        self).
Proof.
  intros Hp He.
  destruct (six_entries e He) as (e0&e1&e2&e3&e4&e5&re&->).
  unfold evalFailure. run_method. rewrite Hp. run_method.
  reflexivity.
Qed.

Lemma evalFailureStrainSens_attached self props elemIndex pt X e dfde :
  properties self = Some props →
  (6 ≤ length e)%nat → (6 ≤ length dfde)%nat →
  let C := evalTangentStiffness3D props in
  let r := vonMisesFailure3DStressSens props (symm_apply C (entry e)) in
  evalFailureStrainSens elemIndex pt X e dfde self =
  Some ((r.1, overwrite (symm_apply C r.2) dfde), self).
Proof.
  intros Hp He Hd C r.
  destruct (six_entries e He) as (e0&e1&e2&e3&e4&e5&re&->).
  destruct (six_entries dfde Hd) as (d0&d1&d2&d3&d4&d5&rd&->).
  unfold evalFailureStrainSens. run_method. rewrite Hp. run_method.
  subst r.
  match goal with
  | |- context [vonMisesFailure3DStressSens props ?l] =>
      change (symm_apply C (entry (e0 :: e1 :: e2 :: e3 :: e4 :: e5 :: re)))
        with l;
      destruct (vonMisesFailure3DStressSens props l) as [fail sens_out]
  end.
  run_method. reflexivity.
Qed.

End Evaluation.

(** ** Computations that leave the object alone *)

Section Frame.
Context `{Scalar}.

Lemma readonly_ret {A} (a : A) : readonly (ret a).
Proof. intros self r self' [= _ <-]. done. Qed.

Lemma readonly_this : readonly this.
Proof. intros self r self' [= _ <-]. done. Qed.

Lemma readonly_defined {A} (o : option A) : readonly (defined o).
Proof. intros self r self'. unfold defined. destruct o; [|done]. by intros [= _ <-]. Qed.

Lemma readonly_bind {A B} (m : Method A) (k : A → Method B) :
  readonly m → (∀ a, readonly (k a)) → readonly (bind m k).
Proof.
  intros Hm Hk self r self'. unfold bind.
  destruct (m self) as [[a self1]|] eqn:E; [|done].
  apply Hm in E as ->. apply Hk.
Qed.

End Frame.

Create HintDb readonly.
#[export] Hint Resolve readonly_ret readonly_this readonly_defined : readonly.

Ltac readonly_step :=
  match goal with
  | |- readonly (bind _ _) => apply readonly_bind; [|intros ?]
  | |- readonly (match ?x with _ => _ end) => destruct x
  | |- readonly (let '(_, _) := ?x in _) => destruct x
  | |- readonly _ => solve [auto with readonly]
  end.

Ltac prove_readonly := repeat readonly_step.

Section FrameMethods.
Context `{Scalar}.

Lemma readonly_getNumStresses : readonly getNumStresses.
Proof. unfold getNumStresses. prove_readonly. Qed.

Lemma readonly_getDesignVarNums i n a : readonly (getDesignVarNums i n a).
Proof. unfold getDesignVarNums. prove_readonly. Qed.

Lemma readonly_getDesignVars i n dvs : readonly (getDesignVars i n dvs).
Proof. unfold getDesignVars. prove_readonly. Qed.

Lemma readonly_getDesignVarRange i n lb ub :
  readonly (getDesignVarRange i n lb ub).
Proof. unfold getDesignVarRange. prove_readonly. Qed.

Lemma readonly_evalDensity i pt X : readonly (evalDensity i pt X).
Proof. unfold evalDensity. prove_readonly. Qed.

Lemma readonly_evalSpecificHeat i pt X : readonly (evalSpecificHeat i pt X).
Proof. unfold evalSpecificHeat. prove_readonly. Qed.

Lemma readonly_evalStress i pt X e s : readonly (evalStress i pt X e s).
Proof. unfold evalStress. prove_readonly. Qed.

Lemma readonly_evalTangentStiffness i pt X C :
  readonly (evalTangentStiffness i pt X C).
Proof. unfold evalTangentStiffness. prove_readonly. Qed.

Lemma readonly_evalThermalStrain i pt X theta e :
  readonly (evalThermalStrain i pt X theta e).
Proof. unfold evalThermalStrain. prove_readonly. Qed.

Lemma readonly_evalHeatFlux i pt X grad flux :
  readonly (evalHeatFlux i pt X grad flux).
Proof. unfold evalHeatFlux. prove_readonly. Qed.

Lemma readonly_evalTangentHeatFlux i pt X C :
  readonly (evalTangentHeatFlux i pt X C).
Proof. unfold evalTangentHeatFlux. prove_readonly. Qed.

Lemma readonly_evalFailure i pt X e : readonly (evalFailure i pt X e).
Proof. unfold evalFailure. prove_readonly. Qed.

Lemma readonly_evalFailureStrainSens i pt X e dfde :
  readonly (evalFailureStrainSens i pt X e dfde).
Proof. unfold evalFailureStrainSens. prove_readonly. Qed.

(** [setDesignVars] touches no field other than [t]. *)
Lemma setDesignVars_frame i n dvs self r self' :
  setDesignVars i n dvs self = Some (r, self') → same_but_t self self'.
Proof.
  unfold setDesignVars, bind, this, defined, assign_t, ret, same_but_t.
  simpl. case_decide.
  - destruct (Mem.load dvs 0) as [v|]; [|done]. by intros [= _ <-].
  - by intros [= _ <-].
Qed.

End FrameMethods.

(** ** The embedding at work, in double precision *)

Example density_scales_with_thickness :
  evalDensity 0 [] [] Demo.solid = Some (6%float, Demo.solid).
Proof. reflexivity. Qed.

Example stress_of_demo_strain :
  evalStress 0 [] [] Demo.strain (Demo.junk 6) Demo.solid
    = Some ([1; 1; 0; 0; 0; 0]%float, Demo.solid).
Proof. reflexivity. Qed.

(** A stress array that is too short makes the call undefined. *)
Example stress_into_short_array :
  evalStress 0 [] [] Demo.strain (Demo.junk 5) Demo.solid = None.
Proof. reflexivity. Qed.

Example heat_flux_of_demo_gradient :
  evalHeatFlux 0 [] [] [1; 2; 3]%float (Demo.junk 2) Demo.solid
    = Some ([3; 5]%float, Demo.solid).
Proof. reflexivity. Qed.

Example design_variable_number_written :
  getDesignVarNums 0 1 (Some [0]) Demo.solid
    = Some ((1, Some [7]), Demo.solid).
Proof. reflexivity. Qed.

Example no_design_variable_owned :
  getDesignVarNums 0 1 (Some [0]) Demo.fixed
    = Some ((0, Some [0]), Demo.fixed) ∧
  setDesignVars 0 1 [3%float] Demo.fixed = Some (tt, Demo.fixed) ∧
  getDesignVars 0 1 (Demo.junk 1) Demo.fixed
    = Some (Demo.junk 1, Demo.fixed).
Proof. repeat split. Qed.

Example design_variable_range :
  getDesignVarRange 0 1 (Some (Demo.junk 1)) None Demo.solid
    = Some ((Some [1%float], None), Demo.solid).
Proof. reflexivity. Qed.

(** ** The claims *)

(** Telling two doubles apart: if [x] compares equal to [c] and [y] does
    not, then [x] and [y] are different. *)
Lemma float_neq (c x y : PrimFloat.float) :
  PrimFloat.eqb x c = true → PrimFloat.eqb y c = false → x ≠ y.
Proof. intros Hx Hy E. rewrite E in Hx. congruence. Qed.

(** C1 (consistency law), evaluated where the code departs from it: on the
    instance [Demo.solid] (thickness 2, stiffness entries [C[0] = C[6] = 1])
    and the strain (1, 1, 0, 0, 0, 0), [evalStress] returns the stress
    (1, 1, 0, 0, 0, 0), while the matrix returned by [evalTangentStiffness],
    applied to the same strain in the Voigt ordering, gives
    (2, 1, 0, 0, 0, 0): the two differ in entry 0. *)
Theorem consistency_law_fails_for_thickness_2 :
  ∃ s C,
    evalStress 0 [] [] Demo.strain (Demo.junk 6) Demo.solid
      = Some (s, Demo.solid) ∧
    evalTangentStiffness 0 [] [] (Demo.junk 21) Demo.solid
      = Some (C, Demo.solid) ∧
    s = [1; 1; 0; 0; 0; 0]%float ∧
    symm_apply (entry C) (entry Demo.strain) = [2; 1; 0; 0; 0; 0]%float ∧
    entry (symm_apply (entry C) (entry Demo.strain)) 0 ≠ entry s 0.
Proof.
  eexists _, _. split; [vm_compute; reflexivity|].
  split; [vm_compute; reflexivity|].
  split; [reflexivity|]. split; [vm_compute; reflexivity|].
  apply (float_neq 2%float); vm_compute; reflexivity.
Qed.

(** What [evalTangentStiffness] returns, entry by entry: the first six
    entries carry the factor [t], the other fifteen do not. *)
Lemma evalTangentStiffness_entries `{Scalar} self props elemIndex pt X C k :
  properties self = Some props → (21 ≤ length C)%nat → (k < 21)%nat →
  ∃ C', evalTangentStiffness elemIndex pt X C self = Some (C', self) ∧
        C' !! k = Some (scaled_leading (evalTangentStiffness3D props)
                                       (t self) k).
Proof.
  intros Hp HC Hk. eexists. split.
  - by apply evalTangentStiffness_attached.
  - unfold overwrite. rewrite lookup_app_l by (simpl; lia).
    rewrite list_lookup_fmap, lookup_seq_lt by done. done.
Qed.

(** C2 (partial-scaling contract), evaluated where the code departs from
    it.  [evalStress] reads the stiffness entry 6: clearing that entry in
    the property source changes the stress it returns for the strain
    (1, 1, 0, 0, 0, 0) from (1, 1, 0, 0, 0, 0) to (1, 0, 0, 0, 0, 0).  Yet
    on [Demo.solid], of thickness 2 and with [C[6] = 1],
    [evalTangentStiffness] returns entry 6 as 1, not as 1·2 = 2, while it
    does return entry 0 as 1·2 = 2. *)
Theorem tangent_entry_6_read_but_not_scaled :
  evalStress 0 [] [] Demo.strain (Demo.junk 6) Demo.solid
    = Some ([1; 1; 0; 0; 0; 0]%float, Demo.solid) ∧
  evalStress 0 [] [] Demo.strain (Demo.junk 6) Demo.solid_less_6
    = Some ([1; 0; 0; 0; 0; 0]%float, Demo.solid_less_6) ∧
  ∃ C,
    evalTangentStiffness 0 [] [] (Demo.junk 21) Demo.solid
      = Some (C, Demo.solid) ∧
    C !! 0%nat = Some (tmul (Demo.stiffness 0) (t Demo.solid)) ∧
    C !! 6%nat = Some (Demo.stiffness 6) ∧
    C !! 6%nat = Some 1%float ∧
    tmul (Demo.stiffness 6) (t Demo.solid) = 2%float ∧
    C !! 6%nat ≠ Some (tmul (Demo.stiffness 6) (t Demo.solid)).
Proof.
  split; [vm_compute; reflexivity|]. split; [vm_compute; reflexivity|].
  eexists. split; [vm_compute; reflexivity|].
  repeat (split; [vm_compute; reflexivity|]).
  intros E. apply (f_equal (default 0%float)) in E.
  revert E. apply (float_neq 1%float); vm_compute; reflexivity.
Qed.

(** C3 (degraded-mode fallback).  On an instance without a property
    source, for every strain, point and position: [evalStress] succeeds
    and writes zero into the six entries of the stress array (entries
    beyond the sixth, if the array has any, keep their contents),
    [evalDensity] returns 0.0 and [evalSpecificHeat] returns 0.0; all three
    return normally and leave the instance as it was.  The stress array
    must be able to hold six entries. *)
Theorem degraded_mode_returns_zero `{Scalar} self elemIndex pt X e s :
  properties self = None → (6 ≤ length s)%nat →
  evalStress elemIndex pt X e s self
    = Some (replicate 6 tzero ++ drop 6 s, self) ∧
  evalDensity elemIndex pt X self = Some (tzero, self) ∧
  evalSpecificHeat elemIndex pt X self = Some (tzero, self).
Proof.
  intros Hp Hs. split; [by apply evalStress_detached|].
  unfold evalDensity, evalSpecificHeat. run_method. rewrite Hp. done.
Qed.

Lemma degraded_mode_returns_zero_witness :
  evalStress 0 [] [] Demo.strain (Demo.junk 7) Demo.bare
    = Some (replicate 6 0%float ++ drop 6 (Demo.junk 7), Demo.bare) ∧
  evalDensity 0 [] [] Demo.bare = Some (0%float, Demo.bare) ∧
  evalSpecificHeat 0 [] [] Demo.bare = Some (0%float, Demo.bare).
Proof.
  apply (degraded_mode_returns_zero Demo.bare 0 [] [] Demo.strain
           (Demo.junk 7)); [reflexivity | simpl; lia].
Defined.

(** Every call other than [setDesignVars] hands the object back as it
    received it. *)
Lemma invoke_readonly `{Scalar} (c : Call) :
  is_setDesignVars c = false → readonly (invoke c).
Proof.
  destruct c; simpl; try discriminate; intros _;
    (apply readonly_bind; [|intros ?; apply readonly_ret]).
  - apply readonly_getNumStresses.
  - apply readonly_getDesignVarNums.
  - apply readonly_getDesignVars.
  - apply readonly_getDesignVarRange.
  - apply readonly_evalDensity.
  - apply readonly_evalSpecificHeat.
  - apply readonly_evalStress.
  - apply readonly_evalTangentStiffness.
  - apply readonly_evalThermalStrain.
  - apply readonly_evalHeatFlux.
  - apply readonly_evalTangentHeatFlux.
  - apply readonly_evalFailure.
  - apply readonly_evalFailureStrainSens.
Qed.

Lemma same_but_t_refl `{Scalar} self : same_but_t self self.
Proof. by repeat split. Qed.

(** C4 (purity of the evaluation entry points).  Whenever a call on an
    instance returns: if the call is one of the eight evaluation entry
    points ([evalDensity], [evalSpecificHeat], [evalStress],
    [evalTangentStiffness], [evalThermalStrain], [evalHeatFlux],
    [evalFailure], [evalFailureStrainSens]) the instance is left exactly as
    it was; the same holds of every call that is not [setDesignVars]; a
    call of [setDesignVars] changes no field other than [t]; and a call
    repeated with the same arguments on the same instance state returns the
    same outputs and the same final state. *)
Theorem evaluation_entry_points_are_pure `{Scalar} (c : Call)
    self out self' :
  invoke c self = Some (out, self') →
  (is_evaluation c = true → self' = self) ∧
  (is_setDesignVars c = false → self' = self) ∧
  same_but_t self self' ∧
  (∀ out2 self2,
     invoke c self = Some (out2, self2) → out2 = out ∧ self2 = self').
Proof.
  intros Hrun.
  assert (Hro : is_setDesignVars c = false → self' = self).
  { intros Hc. by apply (invoke_readonly c Hc self out self'). }
  split; [|split; [done|split]].
  - intros Hev. apply Hro. by destruct c.
  - destruct (is_setDesignVars c) eqn:Hc.
    + destruct c; try discriminate. simpl in Hrun. unfold bind in Hrun.
      destruct (setDesignVars elemIndex dvLen dvs self)
        as [[[] self1]|] eqn:E; [|done].
      injection Hrun as _ <-. by apply setDesignVars_frame in E.
    + rewrite Hro by done. apply same_but_t_refl.
  - intros out2 self2 Hrun2. rewrite Hrun in Hrun2. by injection Hrun2.
Qed.

Lemma evaluation_entry_points_are_pure_witness :
  let c := call_evalStress 0 [] [] Demo.strain (Demo.junk 6) in
  let out := @out_buffer double_scalar [1; 1; 0; 0; 0; 0]%float in
  (is_evaluation c = true → Demo.solid = Demo.solid) ∧
  (is_setDesignVars c = false → Demo.solid = Demo.solid) ∧
  same_but_t Demo.solid Demo.solid ∧
  (∀ out2 self2,
     invoke c Demo.solid = Some (out2, self2) →
     out2 = out ∧ self2 = Demo.solid).
Proof.
  apply (evaluation_entry_points_are_pure
           (call_evalStress 0 [] [] Demo.strain (Demo.junk 6)) Demo.solid
           (@out_buffer double_scalar [1; 1; 0; 0; 0; 0]%float) Demo.solid).
  vm_compute. reflexivity.
Defined.

(** C6 (design-variable round trip).  On an instance that owns a design
    variable ([tNum >= 0]), [setDesignVars] with a design array of length at
    least 1 whose first entry is [v], followed immediately by
    [getDesignVars] into an array of length at least 1, returns normally
    and leaves exactly [v] in the first output entry (the other entries
    keep their contents).  This holds for every [v]; the code does not
    consult [tlb] or [tub], so in particular it holds when [v] lies between
    them. *)
Theorem design_variable_round_trip `{Scalar} self (v : TacsScalar) rest
    i1 n1 i2 n2 out :
  tNum self >= 0 → n1 >= 1 → n2 >= 1 → (1 ≤ length out)%nat →
  ∃ out' self',
    (setDesignVars i1 n1 (v :: rest);; getDesignVars i2 n2 out)%M self
      = Some (out', self') ∧
    out' !! 0%nat = Some v ∧ out' = <[0%nat:=v]> out ∧ t self' = v.
Proof.
  intros Ht Hn1 Hn2 Hout.
  destruct out as [|o0 out]; [simpl in Hout; lia|].
  eexists _, _. split; [|split; [|split]].
  - unfold setDesignVars, getDesignVars. run_method.
    rewrite decide_True by done. run_method.
    rewrite decide_True by done. run_method. reflexivity.
  - done.
  - done.
  - done.
Qed.

Lemma design_variable_round_trip_witness :
  ∃ out' self',
    (setDesignVars 0 1 [3%float];; getDesignVars 0 1 (Demo.junk 2))%M
      Demo.solid = Some (out', self') ∧
    out' !! 0%nat = Some 3%float ∧
    out' = <[0%nat:=3%float]> (Demo.junk 2) ∧ t self' = 3%float.
Proof.
  apply (design_variable_round_trip Demo.solid 3%float [] 0 1 0 1
           (Demo.junk 2)); [done | done | done | simpl; lia].
Defined.

(** C7 (size-only design-variable query).  Whenever the output buffer is
    absent (NULL) or declared too short ([dvLen < 1]) (in particular for
    [dvLen = 0] with a NULL buffer) [getDesignVarNums] returns the number
    of design variables the instance owns, 1 when [tNum >= 0] and 0
    otherwise, and writes nothing: the buffer and the instance are handed
    back unchanged.  The default of the physics model owns no design
    variable and likewise returns 0 without writing. *)
Theorem size_query_writes_nothing `{Scalar} self elemIndex dvLen dvNums :
  dvNums = None ∨ dvLen < 1 →
  getDesignVarNums elemIndex dvLen dvNums self
    = Some ((if decide (tNum self >= 0) then 1 else 0, dvNums), self) ∧
  TACSElementModel.getDesignVarNums elemIndex dvLen dvNums = (0, dvNums).
Proof.
  intros Hq. split; [|done].
  unfold getDesignVarNums. run_method.
  destruct (decide (tNum self >= 0)); [|done].
  destruct dvNums as [a|]; [|done].
  destruct Hq as [|Hlen]; [done|].
  by rewrite decide_False by lia.
Qed.

Lemma size_query_writes_nothing_witness :
  getDesignVarNums 0 0 None Demo.solid = Some ((1, None), Demo.solid) ∧
  TACSElementModel.getDesignVarNums 0 0 None = (0, None).
Proof.
  apply (size_query_writes_nothing Demo.solid 0 0 None). left. reflexivity.
Defined.

(** C8 (unsupported point quantity).  For every element index, quantity
    type, time, quadrature point, position and state input, the default
    [evalPointQuantity] of the physics model returns length 0 and hands the
    quantity buffer back, present or not, exactly as it was given; it
    returns normally. *)
Theorem default_point_quantity_is_a_no_op `{Scalar}
    (elemIndex quantityType : Z) (time : double) (n : Z) (pt : list double)
    (X Xd Ut Ux : list TacsScalar) (quantity : option (list TacsScalar)) :
  TACSElementModel.evalPointQuantity elemIndex quantityType time n pt
    X Xd Ut Ux quantity = (0, quantity).
Proof. reflexivity. Qed.

(** C9.  For every instance, with or without a property source, and every
    input, [evalTangentHeatFlux] returns normally and hands the caller's
    array [C] back exactly as it was given (and leaves the instance as it
    was): the values of the property source go into the inner array that
    hides the parameter. *)
Theorem tangent_heat_flux_output_untouched `{Scalar}
    (self : TACSSolidConstitutive) (elemIndex : Z) (pt : list double)
    (X C : list TacsScalar) :
  evalTangentHeatFlux elemIndex pt X C self = Some (C, self).
Proof.
  unfold evalTangentHeatFlux. run_method.
  destruct (properties self) as [props|]; [|done].
  run_method. reflexivity.
Qed.

(** C10.  On an instance without a property source, [evalHeatFlux] returns
    normally and hands the flux array back exactly as it was given,
    whatever it held, whereas [evalThermalStrain] on the same instance
    overwrites the six entries of its output with zero. *)
Theorem heat_flux_not_zero_filled_without_properties `{Scalar}
    (self : TACSSolidConstitutive) (elemIndex : Z) (pt : list double)
    (X grad flux : list TacsScalar) (theta : TacsScalar)
    (e : list TacsScalar) :
  properties self = None → (6 ≤ length e)%nat →
  evalHeatFlux elemIndex pt X grad flux self = Some (flux, self) ∧
  evalThermalStrain elemIndex pt X theta e self
    = Some (replicate 6 tzero ++ drop 6 e, self).
Proof.
  intros Hp He. split; [|by apply evalThermalStrain_detached].
  unfold evalHeatFlux. run_method. by rewrite Hp.
Qed.

Lemma heat_flux_not_zero_filled_without_properties_witness :
  evalHeatFlux 0 [] [] Demo.strain (Demo.junk 2) Demo.bare
    = Some ([9; 9]%float, Demo.bare) ∧
  evalThermalStrain 0 [] [] 1%float (Demo.junk 6) Demo.bare
    = Some ([0; 0; 0; 0; 0; 0]%float, Demo.bare).
Proof.
  apply (heat_flux_not_zero_filled_without_properties Demo.bare 0 [] []
           Demo.strain (Demo.junk 2) 1%float (Demo.junk 6));
    [reflexivity | simpl; lia].
Defined.

(** ** The failure criterion and its strain derivative *)

Section ChainRule.
Local Open Scope R_scope.

Lemma derivable_pt_lim_pointwise (f g : R → R) (x l : R) :
  (∀ y, f y = g y) → derivable_pt_lim f x l → derivable_pt_lim g x l.
Proof.
  intros Hfg Hf eps Heps. destruct (Hf eps Heps) as [delta Hdelta].
  exists delta. intros h Hh Hlt. rewrite <- !Hfg. by apply Hdelta.
Qed.

Lemma axpy_length h (v s : list R) :
  length s = 6%nat → length v = 6%nat → length (Analysis.axpy h v s) = 6%nat.
Proof.
  intros Hs Hv. unfold Analysis.axpy.
  rewrite length_zip_with. lia.
Qed.

Lemma symm_apply_length (C v : nat → R) :
  length (@symm_apply real_scalar C v) = 6%nat.
Proof. reflexivity. Qed.

(** The stiffness map is linear: [C·(e + h·d) = C·e + h·(C·d)]. *)
Lemma symm_apply_axpy (C : nat → R) h (d e : list R) :
  length e = 6%nat → length d = 6%nat →
  @symm_apply real_scalar C (@entry real_scalar (Analysis.axpy h d e)) =
  Analysis.axpy h (@symm_apply real_scalar C (@entry real_scalar d))
                  (@symm_apply real_scalar C (@entry real_scalar e)).
Proof.
  intros He Hd.
  destruct (exactly_six e He) as (e0&e1&e2&e3&e4&e5&->).
  destruct (exactly_six d Hd) as (d0&d1&d2&d3&d4&d5&->).
  rewrite !symm_apply_rows.
  cbv [Analysis.axpy zip_with sum6 entry default from_option Datatypes.id lookup
       list_lookup nth tadd tmul tzero TacsScalar real_scalar].
  repeat (apply (f_equal2 cons); [ring|]). reflexivity.
Qed.

(** The stiffness matrix is symmetric: [sens · (C·d) = (C·sens) · d]. *)
Lemma symm_apply_adjoint (C sens : nat → R) (d rest : list R) :
  length d = 6%nat →
  Analysis.dot6 sens
    (@entry real_scalar (@symm_apply real_scalar C (@entry real_scalar d))) =
  Analysis.dot6
    (@entry real_scalar (@symm_apply real_scalar C sens ++ rest))
    (@entry real_scalar d).
Proof.
  intros Hd.
  destruct (exactly_six d Hd) as (d0&d1&d2&d3&d4&d5&->).
  rewrite !symm_apply_rows.
  cbv [Analysis.dot6 sum6 entry default from_option Datatypes.id lookup list_lookup
       nth app tadd tmul tzero TacsScalar real_scalar].
  ring.
Qed.

(** The derivative of [h ↦ (s + h·v)²] at 0 is [2·s·v]. *)
Lemma derivable_pt_lim_square_affine (s v : R) :
  derivable_pt_lim (λ h, (s + h * v) * (s + h * v)) 0 (2 * s * v).
Proof.
  intros eps Heps.
  assert (Hpos : 0 < eps / (v * v + 1)).
  { apply Rdiv_lt_0_compat; [done|]. nra. }
  exists (mkposreal _ Hpos). simpl. intros h Hh Hlt.
  replace (((s + (0 + h) * v) * (s + (0 + h) * v)
            - (s + 0 * v) * (s + 0 * v)) / h - 2 * s * v)
    with (h * (v * v)) by (field; done).
  rewrite Rabs_mult, (Rabs_pos_eq (v * v)) by nra.
  assert (Hv : 0 < v * v + 1) by nra.
  apply Rle_lt_trans with (Rabs h * (v * v + 1)).
  - assert (0 <= Rabs h) by apply Rabs_pos. nra.
  - apply (Rmult_lt_compat_r (v * v + 1)) in Hlt; [|done].
    replace (eps / (v * v + 1) * (v * v + 1)) with eps in Hlt
      by (field; lra).
    done.
Qed.

(** The sensitivity of the quadratic criterion is its gradient. *)
Lemma quad_sens_is_gradient (s : list R) :
  length s = 6%nat →
  Analysis.gradient_at Analysis.quad s (Analysis.quad_sens s).
Proof.
  intros Hs v Hv.
  destruct (exactly_six s Hs) as (s0&s1&s2&s3&s4&s5&->).
  destruct (exactly_six v Hv) as (v0&v1&v2&v3&v4&v5&->).
  apply (derivable_pt_lim_pointwise
           (λ h, (s0 + h * v0) * (s0 + h * v0)
                 + (s1 + h * v1) * (s1 + h * v1))); [done|].
  replace (Analysis.dot6 _ _) with (2 * s0 * v0 + 2 * s1 * v1).
  - apply (derivable_pt_lim_plus
             (λ h, (s0 + h * v0) * (s0 + h * v0))
             (λ h, (s1 + h * v1) * (s1 + h * v1)));
      apply derivable_pt_lim_square_affine.
  - cbv [Analysis.dot6 Analysis.quad_sens sum6 entry default from_option
         Datatypes.id lookup list_lookup tadd tmul tzero TacsScalar
         real_scalar].
    ring.
Qed.

End ChainRule.

(** *** The von Mises criterion has a gradient away from zero stress *)

Section VonMisesGradient.
Local Open Scope R_scope.

(** The derivative of [h ↦ a + b·h + c·h²] at 0 is [b]. *)
Lemma derivable_pt_lim_quadratic (a b c : R) :
  derivable_pt_lim (λ h, a + b * h + c * (h * h)) 0 b.
Proof.
  intros eps Heps.
  assert (Hc : 0 < Rabs c + 1) by (pose proof (Rabs_pos c); lra).
  assert (Hpos : 0 < eps / (Rabs c + 1)) by (by apply Rdiv_lt_0_compat).
  exists (mkposreal _ Hpos). simpl. intros h Hh Hlt.
  replace ((a + b * (0 + h) + c * ((0 + h) * (0 + h))
            - (a + b * 0 + c * (0 * 0))) / h - b)
    with (c * h) by (field; done).
  rewrite Rabs_mult.
  apply (Rmult_lt_compat_r (Rabs c + 1)) in Hlt; [|done].
  replace (eps / (Rabs c + 1) * (Rabs c + 1)) with eps in Hlt
    by (field; lra).
  pose proof (Rabs_pos c). pose proof (Rabs_pos h). nra.
Qed.

(** Wherever the equivalent stress is not zero, [VonMises.sens] is the
    gradient of [VonMises.failure]. *)
Lemma von_mises_sens_is_gradient (s : list R) :
  length s = 6%nat → 0 < VonMises.q s →
  Analysis.gradient_at VonMises.failure s (VonMises.sens s).
Proof.
  intros Hs Hq v Hv.
  destruct (exactly_six s Hs) as (s0&s1&s2&s3&s4&s5&->).
  destruct (exactly_six v Hv) as (v0&v1&v2&v3&v4&v5&->).
  set (sv := [s0; s1; s2; s3; s4; s5]) in *.
  set (b := VonMises.dq sv 0 * v0 + VonMises.dq sv 1 * v1
            + VonMises.dq sv 2 * v2 + VonMises.dq sv 3 * v3
            + VonMises.dq sv 4 * v4 + VonMises.dq sv 5 * v5).
  set (c := ((v0 - v1) * (v0 - v1) + (v0 - v2) * (v0 - v2)
             + (v1 - v2) * (v1 - v2)
             + 6 * (v3 * v3 + v4 * v4 + v5 * v5)) / 2).
  set (g := λ h : R, VonMises.q sv + b * h + c * (h * h)).
  assert (Hg : derivable_pt_lim g 0 b)
    by apply derivable_pt_lim_quadratic.
  assert (Hg0 : g 0 = VonMises.q sv) by (unfold g; ring).
  assert (Hsq : derivable_pt_lim sqrt (g 0) (/ (2 * sqrt (VonMises.q sv)))).
  { rewrite Hg0. by apply derivable_pt_lim_sqrt. }
  pose proof (derivable_pt_lim_comp g sqrt 0 _ _ Hg Hsq) as Hcomp.
  pose proof (derivable_pt_lim_div_scal _ _ _ VonMises.ys Hcomp) as Hdiv.
  assert (Hroot : sqrt (VonMises.q sv) ≠ 0).
  { pose proof (sqrt_lt_R0 _ Hq). lra. }
  replace (Analysis.dot6 _ _)
    with (/ (2 * sqrt (VonMises.q sv)) * b / VonMises.ys).
  - apply (derivable_pt_lim_pointwise
             (λ y, comp sqrt g y / VonMises.ys)); [|exact Hdiv].
    intros h. unfold comp, VonMises.failure. do 2 f_equal.
    subst g b c sv.
    cbv [VonMises.q VonMises.dq Analysis.axpy zip_with entry default
         from_option Datatypes.id lookup list_lookup tadd tmul tzero
         TacsScalar real_scalar].
    field.
  - subst b. unfold VonMises.sens.
    cbv [Analysis.dot6 sum6 entry default from_option Datatypes.id lookup
         list_lookup tadd tmul tzero TacsScalar real_scalar VonMises.ys].
    field. done.
Qed.

End VonMisesGradient.

(** C5 (failure-criterion chain rule), in exact real arithmetic.  Take an
    instance with a property source and a 6-entry strain [e]; let [C] be
    the stiffness of the source and [s = C·e] the stress.  Suppose that, at
    this stress [s], [vonMisesFailure3DStressSens] returns the value of
    [vonMisesFailure3D] and fills [sens] with its gradient (nothing is
    asked of the criterion at any other stress).  Then
    [evalFailureStrainSens] returns normally, with the same failure scalar
    as [evalFailure] on [e]; it fills the six entries of [dfde] with
    [C·sens], the same symmetric stiffness map applied to the stress
    sensitivity at [s]; and [dfde] is the exact gradient of the failure
    value with respect to the strain: along every direction [d] the
    function [h ↦ evalFailure (e + h·d)] has derivative [dfde · d] at 0. *)
Theorem failure_strain_sens_is_chain_rule
    (self : @TACSSolidConstitutive real_scalar)
    (props : @TACSMaterialProperties real_scalar)
    (elemIndex : Z) (pt : list double) (X e dfde : list R) :
  properties self = Some props →
  length e = 6%nat → (6 ≤ length dfde)%nat →
  let C := evalTangentStiffness3D props in
  let s := @symm_apply real_scalar C (@entry real_scalar e) in
  let sens := (vonMisesFailure3DStressSens props s).2 in
  (vonMisesFailure3DStressSens props s).1 = vonMisesFailure3D props s →
  Analysis.gradient_at (vonMisesFailure3D props) s sens →
  ∃ fail dfde',
    @evalFailureStrainSens real_scalar elemIndex pt X e dfde self
      = Some ((fail, dfde'), self) ∧
    @evalFailure real_scalar elemIndex pt X e self = Some (fail, self) ∧
    dfde' = @symm_apply real_scalar C sens ++ drop 6 dfde ∧
    Analysis.gradient_at (Analysis.failure_value self elemIndex pt X) e
      (@entry real_scalar dfde').
Proof.
  intros Hp He Hd C s sens Hval Hgrad.
  assert (He6 : (6 ≤ @length (@TacsScalar real_scalar) e)%nat).
  { change (6 ≤ length e)%nat. lia. }
  eexists _, _. split; [|split; [|split; [reflexivity|]]].
  - rewrite (evalFailureStrainSens_attached self props _ _ _ _ _ Hp He6 Hd).
    reflexivity.
  - rewrite (evalFailure_attached self props _ _ _ _ Hp He6).
    fold C. fold s. by rewrite Hval.
  - intros d Hdl.
    apply (derivable_pt_lim_pointwise
             (λ h, vonMisesFailure3D props
                     (Analysis.axpy h (@symm_apply real_scalar C
                                         (@entry real_scalar d)) s))).
    + intros h. unfold Analysis.failure_value.
      assert (Hl : (6 ≤ @length (@TacsScalar real_scalar)
                          (Analysis.axpy h d e))%nat).
      { change (6 ≤ length (Analysis.axpy h d e))%nat.
        rewrite axpy_length by done. lia. }
      rewrite (evalFailure_attached self props _ _ _ _ Hp Hl).
      by rewrite symm_apply_axpy.
    + rewrite <- symm_apply_adjoint by done.
      apply Hgrad. apply symm_apply_length.
Qed.

(** The stress of the sample strain (1, 2, 0, 0, 0, 0) is (3, 3, 0, 0, 0, 0),
    of equivalent stress 3. *)
Lemma von_mises_sample_stress :
  VonMises.q (@symm_apply real_scalar Analysis.stiffness
                (@entry real_scalar Analysis.strain)) = 9%R.
Proof.
  rewrite symm_apply_rows.
  cbv [VonMises.q Analysis.stiffness Analysis.strain sum6 entry default
       from_option Datatypes.id lookup list_lookup nth tadd tmul tzero
       TacsScalar real_scalar].
  field.
Qed.

Lemma failure_strain_sens_is_chain_rule_witness :
  ∃ fail dfde',
    @evalFailureStrainSens real_scalar 0 [] [] Analysis.strain
      [0; 0; 0; 0; 0; 0]%R VonMises.solid
      = Some ((fail, dfde'), VonMises.solid) ∧
    @evalFailure real_scalar 0 [] [] Analysis.strain VonMises.solid
      = Some (fail, VonMises.solid) ∧
    dfde' =
      @symm_apply real_scalar Analysis.stiffness
        (VonMises.sens
           (@symm_apply real_scalar Analysis.stiffness
              (@entry real_scalar Analysis.strain)))
      ++ drop 6 [0; 0; 0; 0; 0; 0]%R ∧
    Analysis.gradient_at (Analysis.failure_value VonMises.solid 0 [] [])
      Analysis.strain (@entry real_scalar dfde').
Proof.
  apply (failure_strain_sens_is_chain_rule VonMises.solid VonMises.props
           0 [] [] Analysis.strain [0; 0; 0; 0; 0; 0]%R);
    [ reflexivity | reflexivity | simpl; lia | reflexivity | ].
  apply von_mises_sens_is_gradient; [reflexivity|].
  change (0 < VonMises.q (@symm_apply real_scalar Analysis.stiffness
                            (@entry real_scalar Analysis.strain)))%R.
  rewrite von_mises_sample_stress. lra.
Defined.

(** * Further properties of the code *)

(** ** Design variables *)

(** A full query on an instance that owns a design variable: with a buffer
    of at least one entry and [dvLen >= 1], [getDesignVarNums] returns 1
    and writes [tNum] into entry 0, leaving the other entries and the
    instance as they were; the count is the one the size-only query
    reports. *)
Theorem full_query_writes_the_number `{Scalar} self elemIndex dvLen
    (a : list Z) :
  tNum self >= 0 → dvLen >= 1 → (1 ≤ length a)%nat →
  getDesignVarNums elemIndex dvLen (Some a) self
    = Some ((1, Some (<[0%nat:=tNum self]> a)), self) ∧
  getDesignVarNums elemIndex 0 None self = Some ((1, None), self).
Proof.
  intros Ht Hn Ha. destruct a as [|a0 a]; [simpl in Ha; lia|].
  unfold getDesignVarNums. run_method.
  rewrite !decide_True by done. run_method. done.
Qed.

Lemma full_query_writes_the_number_witness :
  getDesignVarNums 0 2 (Some [0; 5]) Demo.solid
    = Some ((1, Some [7; 5]), Demo.solid) ∧
  getDesignVarNums 0 0 None Demo.solid = Some ((1, None), Demo.solid).
Proof.
  apply (full_query_writes_the_number Demo.solid 0 2 [0; 5]);
    [done | done | simpl; lia].
Defined.

(** On an instance that owns no design variable ([tNum < 0]), or with
    [dvLen < 1], the three design-variable calls do nothing:
    [setDesignVars] leaves the instance as it was without reading the
    design array (which may be empty), and [getDesignVars] and
    [getDesignVarRange] hand their arrays back untouched. *)
Theorem design_variable_calls_do_nothing_without_owner `{Scalar}
    self elemIndex dvLen (dvs : list TacsScalar)
    (lb ub : option (list TacsScalar)) :
  tNum self < 0 ∨ dvLen < 1 →
  setDesignVars elemIndex dvLen dvs self = Some (tt, self) ∧
  getDesignVars elemIndex dvLen dvs self = Some (dvs, self) ∧
  getDesignVarRange elemIndex dvLen lb ub self = Some ((lb, ub), self).
Proof.
  intros Hno.
  unfold setDesignVars, getDesignVars, getDesignVarRange. run_method.
  rewrite !decide_False by lia. done.
Qed.

Lemma design_variable_calls_do_nothing_without_owner_witness :
  setDesignVars 0 1 [] Demo.fixed = Some (tt, Demo.fixed) ∧
  getDesignVars 0 1 [] Demo.fixed = Some ([], Demo.fixed) ∧
  getDesignVarRange 0 1 (Some []) None Demo.fixed
    = Some ((Some [], None), Demo.fixed).
Proof.
  apply (design_variable_calls_do_nothing_without_owner Demo.fixed 0 1 []
           (Some []) None).
  left. reflexivity.
Defined.

(** Reading the design variable and writing back what was read restores
    the instance exactly: [getDesignVars] into an array of at least one
    entry followed by [setDesignVars] from that array, with the same
    [dvLen], leaves every field as it was. *)
Theorem get_then_set_restores_the_instance `{Scalar} self i1 i2 dvLen
    (out : list TacsScalar) :
  (1 ≤ length out)%nat →
  (out' <- getDesignVars i1 dvLen out;; setDesignVars i2 dvLen out')%M self
    = Some (tt, self).
Proof.
  intros Hout. destruct out as [|o0 out]; [simpl in Hout; lia|].
  unfold getDesignVars, setDesignVars. run_method.
  destruct (decide (tNum self >= 0 ∧ dvLen >= 1)) as [Hd|Hd].
  - run_method. rewrite decide_True by done. run_method. by destruct self.
  - run_method. by rewrite decide_False by done.
Qed.

Lemma get_then_set_restores_the_instance_witness :
  (out' <- getDesignVars 0 1 (Demo.junk 2);; setDesignVars 0 1 out')%M
    Demo.solid = Some (tt, Demo.solid).
Proof.
  apply (get_then_set_restores_the_instance Demo.solid 0 0 1 (Demo.junk 2)).
  simpl. lia.
Defined.

(** The last [setDesignVars] wins: two calls in a row with the same
    [dvLen] leave the instance as the second call alone does. *)
Theorem last_setDesignVars_wins `{Scalar} self i1 i2 dvLen
    (v1 v2 : TacsScalar) (r1 r2 : list TacsScalar) :
  (setDesignVars i1 dvLen (v1 :: r1);; setDesignVars i2 dvLen (v2 :: r2))%M
    self
  = setDesignVars i2 dvLen (v2 :: r2) self.
Proof.
  unfold setDesignVars. run_method.
  destruct (decide (tNum self >= 0 ∧ dvLen >= 1)) as [Hd|Hd].
  - run_method. rewrite decide_True by done. reflexivity.
  - run_method. by rewrite decide_False by done.
Qed.

(** The bounds are those the instance was given and no call moves them:
    on an instance that owns a design variable, [getDesignVarRange] with
    [dvLen >= 1] writes [tlb] and [tub] into entry 0 of the arrays it is
    given, skips an array that is NULL, and reports the same bounds after
    any [setDesignVars]; [setDesignVars] itself stores a value outside the
    bounds as it is. *)
Theorem bounds_are_fixed_and_not_enforced `{Scalar} self elemIndex dvLen
    (lb ub : list TacsScalar) (v : TacsScalar) (rest : list TacsScalar) :
  tNum self >= 0 → dvLen >= 1 →
  (1 ≤ length lb)%nat → (1 ≤ length ub)%nat →
  let range := (Some (<[0%nat:=tlb self]> lb), Some (<[0%nat:=tub self]> ub)) in
  getDesignVarRange elemIndex dvLen (Some lb) (Some ub) self
    = Some (range, self) ∧
  getDesignVarRange elemIndex dvLen None (Some ub) self
    = Some ((None, range.2), self) ∧
  getDesignVarRange elemIndex dvLen (Some lb) None self
    = Some ((range.1, None), self) ∧
  ∃ self',
    setDesignVars elemIndex dvLen (v :: rest) self = Some (tt, self') ∧
    t self' = v ∧
    getDesignVarRange elemIndex dvLen (Some lb) (Some ub) self'
      = Some (range, self').
Proof.
  intros Ht Hn Hlb Hub range. subst range.
  destruct lb as [|l0 lb]; [simpl in Hlb; lia|].
  destruct ub as [|u0 ub]; [simpl in Hub; lia|].
  unfold getDesignVarRange, setDesignVars. run_method.
  rewrite !decide_True by done. run_method.
  repeat (split; [reflexivity|]).
  eexists. split; [reflexivity|]. simpl.
  rewrite decide_True by done. run_method. done.
Qed.

Lemma bounds_are_fixed_and_not_enforced_witness :
  let range := (Some [1%float; 9%float], Some [4%float]) in
  getDesignVarRange 0 1 (Some (Demo.junk 2)) (Some (Demo.junk 1)) Demo.solid
    = Some (range, Demo.solid) ∧
  getDesignVarRange 0 1 None (Some (Demo.junk 1)) Demo.solid
    = Some ((None, range.2), Demo.solid) ∧
  getDesignVarRange 0 1 (Some (Demo.junk 2)) None Demo.solid
    = Some ((range.1, None), Demo.solid) ∧
  ∃ self',
    setDesignVars 0 1 [100%float] Demo.solid = Some (tt, self') ∧
    t self' = 100%float ∧
    getDesignVarRange 0 1 (Some (Demo.junk 2)) (Some (Demo.junk 1)) self'
      = Some (range, self').
Proof.
  apply (bounds_are_fixed_and_not_enforced Demo.solid 0 1 (Demo.junk 2)
           (Demo.junk 1) 100%float []);
    [done | done | simpl; lia | simpl; lia].
Defined.

(** The design variable takes effect on the mass properties: after
    [setDesignVars] has stored [v], on an instance with a property source,
    [evalDensity] returns [v] times the density of the source and
    [evalSpecificHeat] returns [v] times its specific heat. *)
Theorem density_follows_the_design_variable `{Scalar} self props
    elemIndex dvLen (v : TacsScalar) (rest : list TacsScalar)
    (pt : list double) (X : list TacsScalar) :
  properties self = Some props → tNum self >= 0 → dvLen >= 1 →
  ∃ self',
    setDesignVars elemIndex dvLen (v :: rest) self = Some (tt, self') ∧
    evalDensity elemIndex pt X self'
      = Some (tmul v (getDensity props), self') ∧
    evalSpecificHeat elemIndex pt X self'
      = Some (tmul v (getSpecificHeat props), self').
Proof.
  intros Hp Ht Hn. eexists. split.
  - unfold setDesignVars. run_method. rewrite decide_True by done.
    reflexivity.
  - unfold evalDensity, evalSpecificHeat. run_method. rewrite Hp. done.
Qed.

Lemma density_follows_the_design_variable_witness :
  ∃ self',
    setDesignVars 0 1 [4%float] Demo.solid = Some (tt, self') ∧
    evalDensity 0 [] [] self' = Some (tmul 4%float 3%float, self') ∧
    evalSpecificHeat 0 [] [] self' = Some (tmul 4%float 5%float, self').
Proof.
  apply (density_follows_the_design_variable Demo.solid Demo.props 0 1
           4%float [] [] []); done.
Defined.

(** ** What the outputs depend on *)

Ltac case_store :=
  match goal with
  | |- context [Mem.store ?a ?i ?v] =>
      destruct (Mem.store a i v); simpl; [|done]
  | |- context [Mem.out_array ?n ?f ?a] =>
      destruct (Mem.out_array n f a); simpl; [|done]
  | |- context [decide (?i < length ?a)%nat] =>
      destruct (decide (i < length a)%nat); simpl; [|done]
  end.

(** The outputs of the stress, thermal-strain, heat-flux and failure
    evaluations depend on the instance through its property source only:
    two instances with the same property source, whatever their thickness,
    design-variable number and bounds, return the same values and arrays
    (or are both undefined).  In particular [setDesignVars] has no effect
    on what these calls return. *)
Theorem thickness_has_no_effect_on_stress_and_failure `{Scalar}
    (c : Call) (self1 self2 : TACSSolidConstitutive) :
  ignores_thickness c = true →
  properties self1 = properties self2 →
  fst <$> invoke c self1 = fst <$> invoke c self2.
Proof.
  intros Hc Hp. destruct c; try discriminate; clear Hc; simpl.
  - unfold evalStress. cbv [bind this defined ret]. simpl. rewrite Hp.
    destruct (properties self2); simpl; rewrite ?out_array_local; simpl;
      repeat case_store; done.
  - unfold evalThermalStrain. cbv [bind this defined ret]. simpl. rewrite Hp.
    destruct (properties self2); simpl; repeat case_store; done.
  - unfold evalHeatFlux. cbv [bind this defined ret]. simpl. rewrite Hp.
    destruct (properties self2); simpl; rewrite ?out_array_local; simpl;
      repeat case_store; done.
  - unfold evalTangentHeatFlux. cbv [bind this defined ret]. simpl.
    rewrite Hp.
    destruct (properties self2); simpl; rewrite ?out_array_local; done.
  - unfold evalFailure. cbv [bind this defined ret]. simpl. rewrite Hp.
    destruct (properties self2); simpl; rewrite ?out_array_local; simpl;
      repeat case_store; done.
  - unfold evalFailureStrainSens. cbv [bind this defined ret]. simpl.
    rewrite Hp.
    destruct (properties self2); simpl; rewrite ?out_array_local; simpl;
      repeat case_store; try done.
    destruct (vonMisesFailure3DStressSens _ _) as [fail sens_out].
    rewrite ?out_array_local; simpl. repeat case_store; done.
Qed.

Lemma thickness_has_no_effect_on_stress_and_failure_witness :
  fst <$> invoke (call_evalStress 0 [] [] Demo.strain (Demo.junk 6))
            Demo.solid
  = fst <$> invoke (call_evalStress 0 [] [] Demo.strain (Demo.junk 6))
              Demo.fixed.
Proof.
  apply (thickness_has_no_effect_on_stress_and_failure
           (call_evalStress 0 [] [] Demo.strain (Demo.junk 6))
           Demo.solid Demo.fixed); reflexivity.
Defined.

(** ** Where the calls write *)

#[local] Arguments Mem.store {A} a i v : simpl never.
#[local] Arguments Mem.out_array {A} n f a : simpl never.

Section Confined.
Context `{Scalar}.
Implicit Types (a : list TacsScalar).

Lemma confined_refl n a : confined n a a.
Proof. by split. Qed.

Lemma confined_trans n a1 a2 a3 :
  confined n a1 a2 → confined n a2 a3 → confined n a1 a3.
Proof. intros [? ?] [? ?]. split; congruence. Qed.

Lemma store_confined n a i v a' :
  Mem.store a i v = Some a' → (i < n)%nat → confined n a a'.
Proof.
  unfold Mem.store. destruct v as [x|]; simpl; [|done].
  case_decide; [|done]. intros [= <-] Hi. split.
  - apply length_insert.
  - by apply drop_insert_lt.
Qed.

Lemma out_array_confined n m (f : nat → TacsScalar) a a' :
  Mem.out_array m f a = Some a' → (m ≤ n)%nat → confined n a a'.
Proof.
  unfold Mem.out_array. case_decide; [|done]. intros [= <-] Hm. split.
  - rewrite length_app, length_map, length_seq, length_drop. lia.
  - rewrite drop_app_ge by (rewrite length_map, length_seq; lia).
    rewrite length_map, length_seq, drop_drop. f_equal. lia.
Qed.

End Confined.

Ltac invert_stores H :=
  repeat match type of H with
  | context [Mem.store ?a ?i ?v] =>
      let E := fresh "E" in
      destruct (Mem.store a i v) eqn:E; simpl in H; [|discriminate H]
  | context [Mem.out_array ?n ?f ?a] =>
      let E := fresh "E" in
      destruct (Mem.out_array n f a) eqn:E; simpl in H; [|discriminate H]
  end.

Ltac chain_confined :=
  repeat match goal with
  | E : Mem.store ?a _ _ = Some ?a' |- confined _ ?a _ =>
      eapply confined_trans;
      [eapply (store_confined _ _ _ _ _ E); lia|]; clear E
  | E : Mem.out_array _ _ ?a = Some ?a' |- confined _ ?a _ =>
      eapply confined_trans;
      [eapply (out_array_confined _ _ _ _ _ E); lia|]; clear E
  end;
  apply confined_refl.

(** No call resizes the array it is given or writes past its window:
    whenever a call returns, the array handed back has the length of the
    array given, and everything after the first 6 entries (stress, thermal
    strain, strain sensitivity), the first 21 (tangent stiffness), the
    first 2 (heat flux), the first entry (design variable), or the whole
    array (tangent heat flux) is as it was given. *)
Theorem writes_stay_inside_the_window `{Scalar} (c : Call)
    self out self' a n a' :
  invoke c self = Some (out, self') →
  window c = Some (a, n) → buffer_of out = Some a' →
  confined n a a'.
Proof.
  intros Hrun Hw Hout.
  destruct c; try discriminate; injection Hw as <- <-; simpl in Hrun.
  - unfold getDesignVars in Hrun. cbv [bind this defined ret] in Hrun.
    simpl in Hrun. case_decide; simpl in Hrun.
    + invert_stores Hrun. injection Hrun as <- _. simpl in Hout.
      injection Hout as <-. chain_confined.
    + injection Hrun as <- _. injection Hout as <-. apply confined_refl.
  - unfold evalStress in Hrun. cbv [bind this defined ret] in Hrun.
    simpl in Hrun. destruct (properties self); simpl in Hrun;
      rewrite ?out_array_local in Hrun; simpl in Hrun;
      invert_stores Hrun; injection Hrun as <- _; injection Hout as <-;
      chain_confined.
  - unfold evalTangentStiffness in Hrun.
    cbv [bind this defined ret] in Hrun.
    simpl in Hrun. destruct (properties self); simpl in Hrun;
      invert_stores Hrun; injection Hrun as <- _; injection Hout as <-;
      chain_confined.
  - unfold evalThermalStrain in Hrun. cbv [bind this defined ret] in Hrun.
    simpl in Hrun. destruct (properties self); simpl in Hrun;
      invert_stores Hrun; injection Hrun as <- _; injection Hout as <-;
      chain_confined.
  - unfold evalHeatFlux in Hrun. cbv [bind this defined ret] in Hrun.
    simpl in Hrun. destruct (properties self); simpl in Hrun;
      rewrite ?out_array_local in Hrun; simpl in Hrun;
      invert_stores Hrun; injection Hrun as <- _; injection Hout as <-;
      chain_confined.
  - unfold evalTangentHeatFlux in Hrun. cbv [bind this defined ret] in Hrun.
    simpl in Hrun. destruct (properties self); simpl in Hrun;
      rewrite ?out_array_local in Hrun; simpl in Hrun;
      injection Hrun as <- _; injection Hout as <-; apply confined_refl.
  - unfold evalFailureStrainSens in Hrun.
    cbv [bind this defined ret] in Hrun.
    simpl in Hrun. destruct (properties self); simpl in Hrun;
      rewrite ?out_array_local in Hrun; simpl in Hrun.
    + invert_stores Hrun.
      destruct (vonMisesFailure3DStressSens _ _) as [fail sens_out].
      rewrite ?out_array_local in Hrun; simpl in Hrun.
      invert_stores Hrun. injection Hrun as <- _. injection Hout as <-.
      chain_confined.
    + injection Hrun as <- _. injection Hout as <-. apply confined_refl.
Qed.

Lemma writes_stay_inside_the_window_witness :
  confined 6 (Demo.junk 8)
    ([1; 1; 0; 0; 0; 0; 9; 9]%float : list (@TacsScalar double_scalar)).
Proof.
  apply (writes_stay_inside_the_window
           (call_evalStress 0 [] [] Demo.strain (Demo.junk 8)) Demo.solid
           (@out_buffer double_scalar [1; 1; 0; 0; 0; 0; 9; 9]%float)
           Demo.solid);
    reflexivity.
Defined.

(** ** The stress law *)

Lemma voigt_table (i j : nat) :
  (i < 6)%nat → (j < 6)%nat →
  voigt i j = voigt j i ∧ (voigt i j < 21)%nat.
Proof.
  intros Hi Hj.
  do 6 (destruct i as [|i]; [do 6 (destruct j as [|j]; [vm_compute; lia|]); lia|]).
  lia.
Qed.

(** [evalStress] is the product of a symmetric 6x6 matrix, stored as its
    upper triangle row by row in the 21 stiffness entries of the property
    source, with the strain: with [C] those entries, entry [i] of the
    stress is the sum over [j = 0..5], taken from left to right, of
    [C[voigt i j] * e[j]], where [voigt i j = voigt j i] is the place of
    the matrix entry (i, j) and lies below 21; the rest of the stress array
    keeps its contents. *)
Theorem stress_is_the_symmetric_packed_product `{Scalar} self props
    elemIndex pt (X e s : list TacsScalar) :
  properties self = Some props →
  (6 ≤ length e)%nat → (6 ≤ length s)%nat →
  ∃ s',
    evalStress elemIndex pt X e s self = Some (s', self) ∧
    (∀ i, (i < 6)%nat →
       s' !! i = Some (sum6 (λ j, tmul (evalTangentStiffness3D props
                                          (voigt i j))
                                       (entry e j)))) ∧
    confined 6 s s' ∧
    (∀ i j, (i < 6)%nat → (j < 6)%nat →
       voigt i j = voigt j i ∧ (voigt i j < 21)%nat).
Proof.
  intros Hp He Hs. eexists. split; [by apply evalStress_attached|].
  split; [|split].
  - intros i Hi. unfold overwrite, symm_apply.
    rewrite lookup_app_l by (rewrite length_map, length_seq; done).
    rewrite list_lookup_fmap, lookup_seq_lt by done. done.
  - unfold overwrite, symm_apply, confined.
    rewrite length_app, !length_map, !length_seq, length_drop.
    split; [lia|].
    rewrite drop_app_ge by (rewrite length_map, length_seq; lia).
    rewrite length_map, length_seq, drop_drop. f_equal.
  - intros i j Hi Hj. by apply voigt_table.
Qed.

Lemma stress_is_the_symmetric_packed_product_witness :
  ∃ s',
    evalStress 0 [] [] Demo.strain (Demo.junk 7) Demo.solid
      = Some (s', Demo.solid) ∧
    (∀ i, (i < 6)%nat →
       s' !! i = Some (sum6 (λ j, tmul (Demo.stiffness (voigt i j))
                                       (entry Demo.strain j)))) ∧
    confined 6 (Demo.junk 7) s' ∧
    (∀ i j, (i < 6)%nat → (j < 6)%nat →
       voigt i j = voigt j i ∧ (voigt i j < 21)%nat).
Proof.
  apply (stress_is_the_symmetric_packed_product Demo.solid Demo.props 0 []
           [] Demo.strain (Demo.junk 7)); [reflexivity | simpl; lia ..].
Defined.

(** The failure index is the failure criterion of the stress that
    [evalStress] returns: for the same strain, [evalFailure] returns
    [vonMisesFailure3D] of the six stresses, and [evalFailureStrainSens]
    returns what [vonMisesFailure3DStressSens] returns for them. *)
Theorem failure_is_the_criterion_of_the_stress `{Scalar} self props
    elemIndex pt (X e s dfde : list TacsScalar) :
  properties self = Some props →
  (6 ≤ length e)%nat → length s = 6%nat → (6 ≤ length dfde)%nat →
  ∃ sigma dfde',
    evalStress elemIndex pt X e s self = Some (sigma, self) ∧
    evalFailure elemIndex pt X e self
      = Some (vonMisesFailure3D props sigma, self) ∧
    evalFailureStrainSens elemIndex pt X e dfde self
      = Some (((vonMisesFailure3DStressSens props sigma).1, dfde'), self).
Proof.
  intros Hp He Hs Hd.
  assert (Hov : ∀ w : list TacsScalar,
             length w = 6%nat → overwrite w s = w).
  { intros w Hw. unfold overwrite. rewrite drop_ge by lia.
    apply app_nil_r. }
  eexists _, _. split; [|split].
  - rewrite (evalStress_attached self props) by (done || lia).
    rewrite Hov by done. reflexivity.
  - by apply evalFailure_attached.
  - by rewrite (evalFailureStrainSens_attached self props) by done.
Qed.

Lemma failure_is_the_criterion_of_the_stress_witness :
  ∃ sigma dfde',
    evalStress 0 [] [] Demo.strain (Demo.junk 6) Demo.solid
      = Some (sigma, Demo.solid) ∧
    evalFailure 0 [] [] Demo.strain Demo.solid
      = Some (vonMisesFailure3D Demo.props sigma, Demo.solid) ∧
    evalFailureStrainSens 0 [] [] Demo.strain (Demo.junk 6) Demo.solid
      = Some (((vonMisesFailure3DStressSens Demo.props sigma).1, dfde'),
              Demo.solid).
Proof.
  apply (failure_is_the_criterion_of_the_stress Demo.solid Demo.props 0 []
           [] Demo.strain (Demo.junk 6) (Demo.junk 6));
    [reflexivity | simpl; lia | reflexivity | simpl; lia].
Defined.

(** Without a property source the failure evaluations return 0.0 for every
    strain, read nothing, and [evalFailureStrainSens] hands [dfde] back as
    it was given: the derivative array is not zero-filled. *)
Theorem failure_without_properties `{Scalar} self elemIndex pt
    (X e dfde : list TacsScalar) :
  properties self = None →
  evalFailure elemIndex pt X e self = Some (tzero, self) ∧
  evalFailureStrainSens elemIndex pt X e dfde self
    = Some ((tzero, dfde), self).
Proof.
  intros Hp. unfold evalFailure, evalFailureStrainSens. run_method.
  by rewrite Hp.
Qed.

Lemma failure_without_properties_witness :
  evalFailure 0 [] [] [] Demo.bare = Some (0%float, Demo.bare) ∧
  evalFailureStrainSens 0 [] [] [] (Demo.junk 6) Demo.bare
    = Some ((0%float, Demo.junk 6), Demo.bare).
Proof.
  apply (failure_without_properties Demo.bare 0 [] [] [] (Demo.junk 6)).
  reflexivity.
Defined.

(** Without a property source [evalTangentStiffness] zeroes the first six
    entries of the stiffness array only: an array of six entries suffices,
    and in a longer one every entry from index 6 on, the other fifteen
    stiffness entries among them, keeps the value it had. *)
Theorem tangent_stiffness_without_properties `{Scalar} self elemIndex pt
    (X C : list TacsScalar) :
  properties self = None → (6 ≤ length C)%nat →
  ∃ C',
    evalTangentStiffness elemIndex pt X C self = Some (C', self) ∧
    (∀ k, (k < 6)%nat → C' !! k = Some tzero) ∧
    (∀ k, (6 ≤ k)%nat → C' !! k = C !! k).
Proof.
  intros Hp HC. eexists. split; [by apply evalTangentStiffness_detached|].
  unfold overwrite. rewrite length_replicate. split.
  - intros k Hk. rewrite lookup_app_l by (rewrite length_replicate; done).
    by apply lookup_replicate_2.
  - intros k Hk. rewrite lookup_app_r by (rewrite length_replicate; done).
    rewrite length_replicate, lookup_drop. f_equal. lia.
Qed.

Lemma tangent_stiffness_without_properties_witness :
  ∃ C',
    evalTangentStiffness 0 [] [] (Demo.junk 21) Demo.bare
      = Some (C', Demo.bare) ∧
    (∀ k, (k < 6)%nat → C' !! k = Some 0%float) ∧
    (∀ k, (6 ≤ k)%nat → C' !! k = Demo.junk 21 !! k).
Proof.
  apply (tangent_stiffness_without_properties Demo.bare 0 [] []
           (Demo.junk 21)); [reflexivity | simpl; lia].
Defined.

(** ** The stress law in exact arithmetic *)

Ltac real_entries :=
  cbv [Analysis.axpy Analysis.dot6 zip_with sum6 entry default from_option
       Datatypes.id lookup list_lookup nth app overwrite drop length
       scaled_leading Nat.ltb Nat.leb map seq symm_apply symm_row
       tadd tmul tzero TacsScalar real_scalar].

Section RealStress.
Local Open Scope R_scope.
Implicit Types (self : @TACSSolidConstitutive real_scalar).
Implicit Types (props : @TACSMaterialProperties real_scalar).

(** The stress returned for a six-entry strain into a six-entry array. *)
Lemma evalStress_six self props elemIndex pt (X e s : list R) :
  properties self = Some props → length e = 6%nat → length s = 6%nat →
  @evalStress real_scalar elemIndex pt X e s self =
  Some (@symm_apply real_scalar (evalTangentStiffness3D props)
          (@entry real_scalar e), self).
Proof.
  intros Hp He Hs.
  assert (He6 : (6 ≤ @length (@TacsScalar real_scalar) e)%nat).
  { change (6 ≤ length e)%nat. lia. }
  assert (Hs6 : (6 ≤ @length (@TacsScalar real_scalar) s)%nat).
  { change (6 ≤ length s)%nat. lia. }
  rewrite (evalStress_attached self props _ _ _ _ _ Hp He6 Hs6).
  unfold overwrite. rewrite symm_apply_length.
  change (drop 6 s) with (@drop R 6 s).
  rewrite drop_ge by lia. by rewrite app_nil_r.
Qed.

End RealStress.

(** The stress is linear in the strain: in exact arithmetic, for strains
    [e] and [d] and a factor [h], the stress of [e + h·d] is the stress of
    [e] plus [h] times the stress of [d], entry by entry. *)
Theorem stress_is_linear_in_the_strain
    (self : @TACSSolidConstitutive real_scalar)
    (props : @TACSMaterialProperties real_scalar)
    (elemIndex : Z) (pt : list double) (X e d s : list R) (h : R) :
  properties self = Some props →
  length e = 6%nat → length d = 6%nat → length s = 6%nat →
  ∃ se sd,
    @evalStress real_scalar elemIndex pt X e s self = Some (se, self) ∧
    @evalStress real_scalar elemIndex pt X d s self = Some (sd, self) ∧
    @evalStress real_scalar elemIndex pt X (Analysis.axpy h d e) s self
      = Some (Analysis.axpy h sd se, self).
Proof.
  intros Hp He Hd Hs. eexists _, _.
  split; [by apply evalStress_six|]. split; [by apply evalStress_six|].
  rewrite (evalStress_six self props) by (done || by apply axpy_length).
  by rewrite symm_apply_axpy.
Qed.

Lemma stress_is_linear_in_the_strain_witness :
  ∃ se sd,
    @evalStress real_scalar 0 [] [] Analysis.strain (Samples.zeros 6)
      Analysis.solid = Some (se, Analysis.solid) ∧
    @evalStress real_scalar 0 [] [] Samples.direction (Samples.zeros 6)
      Analysis.solid = Some (sd, Analysis.solid) ∧
    @evalStress real_scalar 0 [] []
      (Analysis.axpy 3 Samples.direction Analysis.strain) (Samples.zeros 6)
      Analysis.solid
      = Some (Analysis.axpy 3 sd se, Analysis.solid).
Proof.
  apply (stress_is_linear_in_the_strain Analysis.solid Analysis.props 0 []
           [] Analysis.strain Samples.direction (Samples.zeros 6) 3%R);
    reflexivity.
Defined.

(** Reciprocity: the stiffness matrix [evalStress] applies is symmetric.
    In exact arithmetic, for any two strains [e] and [d], the work of the
    stress of [e] on [d] equals the work of the stress of [d] on [e]. *)
Theorem stress_is_reciprocal
    (self : @TACSSolidConstitutive real_scalar)
    (props : @TACSMaterialProperties real_scalar)
    (elemIndex : Z) (pt : list double) (X e d s : list R) :
  properties self = Some props →
  length e = 6%nat → length d = 6%nat → length s = 6%nat →
  ∃ se sd,
    @evalStress real_scalar elemIndex pt X e s self = Some (se, self) ∧
    @evalStress real_scalar elemIndex pt X d s self = Some (sd, self) ∧
    Analysis.dot6 (@entry real_scalar d) (@entry real_scalar se)
    = Analysis.dot6 (@entry real_scalar e) (@entry real_scalar sd).
Proof.
  intros Hp He Hd Hs. eexists _, _.
  split; [by apply evalStress_six|]. split; [by apply evalStress_six|].
  destruct (exactly_six e He) as (e0&e1&e2&e3&e4&e5&->).
  destruct (exactly_six d Hd) as (d0&d1&d2&d3&d4&d5&->).
  rewrite !symm_apply_rows. real_entries. ring.
Qed.

Lemma stress_is_reciprocal_witness :
  ∃ se sd,
    @evalStress real_scalar 0 [] [] Analysis.strain (Samples.zeros 6)
      Analysis.solid = Some (se, Analysis.solid) ∧
    @evalStress real_scalar 0 [] [] Samples.direction (Samples.zeros 6)
      Analysis.solid = Some (sd, Analysis.solid) ∧
    Analysis.dot6 (@entry real_scalar Samples.direction)
                  (@entry real_scalar se)
    = Analysis.dot6 (@entry real_scalar Analysis.strain)
                    (@entry real_scalar sd).
Proof.
  apply (stress_is_reciprocal Analysis.solid Analysis.props 0 [] []
           Analysis.strain Samples.direction (Samples.zeros 6));
    reflexivity.
Defined.

(** For thickness 1 the tangent stiffness and the stress agree: in exact
    arithmetic, on an instance with [t = 1], the matrix returned by
    [evalTangentStiffness], applied to a strain in the Voigt ordering, is
    the stress [evalStress] returns for that strain. *)
Theorem tangent_matches_stress_for_unit_thickness
    (self : @TACSSolidConstitutive real_scalar)
    (props : @TACSMaterialProperties real_scalar)
    (elemIndex : Z) (pt : list double) (X e s C : list R) :
  properties self = Some props → t self = 1%R →
  length e = 6%nat → length s = 6%nat → length C = 21%nat →
  ∃ sigma C',
    @evalStress real_scalar elemIndex pt X e s self = Some (sigma, self) ∧
    @evalTangentStiffness real_scalar elemIndex pt X C self
      = Some (C', self) ∧
    @symm_apply real_scalar (@entry real_scalar C') (@entry real_scalar e)
    = sigma.
Proof.
  intros Hp Ht He Hs HC. eexists _, _.
  split; [by apply evalStress_six|].
  assert (HC21 : (21 ≤ @length (@TacsScalar real_scalar) C)%nat).
  { change (21 ≤ length C)%nat. lia. }
  split; [by apply evalTangentStiffness_attached|].
  rewrite Ht.
  destruct (exactly_six e He) as (e0&e1&e2&e3&e4&e5&->).
  rewrite !symm_apply_rows. real_entries.
  repeat (apply (f_equal2 cons); [ring|]). reflexivity.
Qed.

Lemma tangent_matches_stress_for_unit_thickness_witness :
  ∃ sigma C',
    @evalStress real_scalar 0 [] [] Analysis.strain (Samples.zeros 6)
      Samples.unit_thickness = Some (sigma, Samples.unit_thickness) ∧
    @evalTangentStiffness real_scalar 0 [] [] (Samples.zeros 21)
      Samples.unit_thickness = Some (C', Samples.unit_thickness) ∧
    @symm_apply real_scalar (@entry real_scalar C')
      (@entry real_scalar Analysis.strain)
    = sigma.
Proof.
  apply (tangent_matches_stress_for_unit_thickness Samples.unit_thickness
           Analysis.props 0 [] [] Analysis.strain (Samples.zeros 6)
           (Samples.zeros 21)); reflexivity.
Defined.

Lemma unit_strain_length j : length (Samples.unit_strain j) = 6%nat.
Proof. reflexivity. Qed.

(** Every one of the 21 stiffness entries reaches the stress: in exact
    arithmetic, two property sources for which [evalStress] returns the
    same stress for every strain have the same 21 stiffness entries. *)
Theorem every_stiffness_entry_reaches_the_stress
    (self1 self2 : @TACSSolidConstitutive real_scalar)
    (props1 props2 : @TACSMaterialProperties real_scalar)
    (elemIndex : Z) (pt : list double) (X s : list R) :
  properties self1 = Some props1 → properties self2 = Some props2 →
  length s = 6%nat →
  (∀ e, length e = 6%nat →
     fst <$> @evalStress real_scalar elemIndex pt X e s self1
     = fst <$> @evalStress real_scalar elemIndex pt X e s self2) →
  ∀ k, (k < 21)%nat →
    evalTangentStiffness3D props1 k = evalTangentStiffness3D props2 k.
Proof.
  intros Hp1 Hp2 Hs Hsame.
  assert (Hu : ∀ j,
    @symm_apply real_scalar (evalTangentStiffness3D props1)
      (@entry real_scalar (Samples.unit_strain j))
    = @symm_apply real_scalar (evalTangentStiffness3D props2)
        (@entry real_scalar (Samples.unit_strain j))).
  { intros j. specialize (Hsame _ (unit_strain_length j)).
    rewrite (evalStress_six self1 props1), (evalStress_six self2 props2)
      in Hsame by (done || apply unit_strain_length).
    simpl in Hsame. congruence. }
  pose proof (Hu 0%nat) as U0. pose proof (Hu 1%nat) as U1.
  pose proof (Hu 2%nat) as U2. pose proof (Hu 3%nat) as U3.
  pose proof (Hu 4%nat) as U4. pose proof (Hu 5%nat) as U5.
  clear Hu Hsame.
  rewrite !symm_apply_rows in U0, U1, U2, U3, U4, U5.
  revert U0 U1 U2 U3 U4 U5.
  cbv [Samples.unit_strain Nat.eqb]. real_entries.
  intros U0 U1 U2 U3 U4 U5.
  injection U0 as ? ? ? ? ? ?. injection U1 as ? ? ? ? ? ?.
  injection U2 as ? ? ? ? ? ?. injection U3 as ? ? ? ? ? ?.
  injection U4 as ? ? ? ? ? ?. injection U5 as ? ? ? ? ? ?.
  intros k Hk.
  do 21 (destruct k as [|k]; [lra|]).
  lia.
Qed.

Lemma every_stiffness_entry_reaches_the_stress_witness :
  evalTangentStiffness3D Analysis.props 6 = Analysis.stiffness 6.
Proof.
  apply (every_stiffness_entry_reaches_the_stress Analysis.solid
           Samples.unit_thickness Analysis.props Analysis.props 0 [] []
           (Samples.zeros 6));
    [reflexivity | reflexivity | reflexivity | | lia].
  intros e He.
  rewrite (evalStress_six Analysis.solid Analysis.props),
          (evalStress_six Samples.unit_thickness Analysis.props)
    by done.
  reflexivity.
Defined.

(** ** Thermal strain and heat flux *)

Section Thermal.
Context `{Scalar}.

Lemma evalThermalStrain_attached self props elemIndex pt
    (X : list TacsScalar) (theta : TacsScalar) (e : list TacsScalar) :
  properties self = Some props → (6 ≤ length e)%nat →
  evalThermalStrain elemIndex pt X theta e self =
  Some (overwrite (map (λ k, tmul (evalThermalStrain3D props k) theta)
                       (seq 0 6)) e, self).
Proof.
  intros Hp He.
  unfold evalThermalStrain. run_method. rewrite Hp. run_method.
  reflexivity.
Qed.

Lemma evalHeatFlux_attached self props elemIndex pt
    (X grad flux : list TacsScalar) :
  properties self = Some props →
  (3 ≤ length grad)%nat → (2 ≤ length flux)%nat →
  evalHeatFlux elemIndex pt X grad flux self =
  Some (overwrite (heat_flux (evalTangentHeatFlux2D props) (entry grad))
                  flux, self).
Proof.
  intros Hp Hg Hf.
  destruct grad as [|g0 [|g1 [|g2 grad]]]; try (simpl in Hg; lia).
  destruct flux as [|f0 [|f1 flux]]; try (simpl in Hf; lia).
  unfold evalHeatFlux. run_method. rewrite Hp. run_method.
  reflexivity.
Qed.

Lemma evalHeatFlux_short_gradient self props elemIndex pt
    (X grad flux : list TacsScalar) :
  properties self = Some props →
  (length grad < 3)%nat → (2 ≤ length flux)%nat →
  evalHeatFlux elemIndex pt X grad flux self = None.
Proof.
  intros Hp Hg Hf.
  destruct flux as [|f0 [|f1 flux]]; try (simpl in Hf; lia).
  unfold evalHeatFlux. run_method. rewrite Hp. run_method.
  destruct grad as [|g0 [|g1 [|g2 grad]]]; try (simpl in Hg; lia);
    run_method; reflexivity.
Qed.

End Thermal.

(** The heat flux reads three gradient entries.  On an instance with a
    property source whose packed conductivity is [K], and a flux array of
    at least two entries: with a gradient of at least three entries
    [evalHeatFlux] writes [K[0]·grad[0] + K[1]·grad[1]] and
    [K[1]·grad[1] + K[2]·grad[2]] into the first two flux entries and
    leaves the rest; with a gradient of fewer than three entries, a
    two-entry one included, the call reads past the end of the gradient
    and is undefined. *)
Theorem heat_flux_reads_three_gradient_entries `{Scalar} self props
    elemIndex pt (X grad flux : list TacsScalar) :
  properties self = Some props → (2 ≤ length flux)%nat →
  ((3 ≤ length grad)%nat →
   evalHeatFlux elemIndex pt X grad flux self =
   Some (heat_flux (evalTangentHeatFlux2D props) (entry grad)
           ++ drop 2 flux, self)) ∧
  ((length grad < 3)%nat →
   evalHeatFlux elemIndex pt X grad flux self = None).
Proof.
  intros Hp Hf. split; intros Hg.
  - by apply evalHeatFlux_attached.
  - by apply (evalHeatFlux_short_gradient self props).
Qed.

Lemma heat_flux_reads_three_gradient_entries_witness :
  ((3 ≤ length [1; 2]%float)%nat →
   evalHeatFlux 0 [] [] [1; 2]%float (Demo.junk 2) Demo.solid =
   Some (heat_flux (evalTangentHeatFlux2D Demo.props)
           (entry [1; 2]%float) ++ drop 2 (Demo.junk 2), Demo.solid)) ∧
  ((length [1; 2]%float < 3)%nat →
   evalHeatFlux 0 [] [] [1; 2]%float (Demo.junk 2) Demo.solid = None).
Proof.
  apply (heat_flux_reads_three_gradient_entries Demo.solid Demo.props 0 []
           [] [1; 2]%float (Demo.junk 2)); [reflexivity | simpl; lia].
Defined.

(** The thermal strain is linear in the temperature rise.  In exact
    arithmetic, on an instance with a property source, entry [k < 6] of the
    strain [evalThermalStrain] returns for the temperature rise [theta] is
    the coefficient the source wrote at [k] times [theta]; hence the
    strain for [a·theta1 + theta2] is [a] times the strain for [theta1]
    plus the strain for [theta2], and the strain for a zero rise is zero.
    Entries of the array beyond the sixth are kept. *)
Theorem thermal_strain_is_linear_in_the_temperature
    (self : @TACSSolidConstitutive real_scalar)
    (props : @TACSMaterialProperties real_scalar)
    (elemIndex : Z) (pt : list double) (X e : list R) (a theta1 theta2 : R) :
  properties self = Some props → length e = 6%nat →
  ∃ e1 e2 e12 e0,
    @evalThermalStrain real_scalar elemIndex pt X theta1 e self
      = Some (e1, self) ∧
    @evalThermalStrain real_scalar elemIndex pt X theta2 e self
      = Some (e2, self) ∧
    @evalThermalStrain real_scalar elemIndex pt X
      (a * theta1 + theta2)%R e self = Some (e12, self) ∧
    @evalThermalStrain real_scalar elemIndex pt X 0%R e self
      = Some (e0, self) ∧
    e12 = Analysis.axpy a e1 e2 ∧ e0 = Samples.zeros 6 ∧
    (∀ k, (k < 6)%nat →
       e1 !! k = Some (evalThermalStrain3D props k * theta1)%R).
Proof.
  intros Hp He.
  assert (He6 : (6 ≤ @length (@TacsScalar real_scalar) e)%nat).
  { change (6 ≤ length e)%nat. lia. }
  destruct (exactly_six e He) as (x0&x1&x2&x3&x4&x5&->).
  eexists _, _, _, _.
  rewrite !(evalThermalStrain_attached self props _ _ _ _ _ Hp He6).
  do 4 (split; [reflexivity|]).
  split; [|split].
  - real_entries. repeat (apply (f_equal2 cons); [ring|]). reflexivity.
  - cbv [Samples.zeros replicate]. real_entries.
    repeat (apply (f_equal2 cons); [ring|]). reflexivity.
  - intros k Hk.
    do 6 (destruct k as [|k]; [reflexivity|]). lia.
Qed.

Lemma thermal_strain_is_linear_in_the_temperature_witness :
  ∃ e1 e2 e12 e0,
    @evalThermalStrain real_scalar 0 [] [] 2%R (Samples.zeros 6)
      Samples.ortho_solid = Some (e1, Samples.ortho_solid) ∧
    @evalThermalStrain real_scalar 0 [] [] 5%R (Samples.zeros 6)
      Samples.ortho_solid = Some (e2, Samples.ortho_solid) ∧
    @evalThermalStrain real_scalar 0 [] [] (3 * 2 + 5)%R (Samples.zeros 6)
      Samples.ortho_solid = Some (e12, Samples.ortho_solid) ∧
    @evalThermalStrain real_scalar 0 [] [] 0%R (Samples.zeros 6)
      Samples.ortho_solid = Some (e0, Samples.ortho_solid) ∧
    e12 = Analysis.axpy 3 e1 e2 ∧ e0 = Samples.zeros 6 ∧
    (∀ k, (k < 6)%nat →
       e1 !! k = Some (evalThermalStrain3D Samples.ortho_props k * 2)%R).
Proof.
  apply (thermal_strain_is_linear_in_the_temperature Samples.ortho_solid
           Samples.ortho_props 0 [] [] (Samples.zeros 6) 3%R 2%R 5%R);
    reflexivity.
Defined.

(** ** The legacy orthotropic law of [SolidStiffness] *)

Section Orthotropic.
Context `{Scalar}.

Lemma calcStress_value (m : SolidStiffness.SolidStiffness)
    (e s : list TacsScalar) :
  (6 ≤ length e)%nat → (6 ≤ length s)%nat →
  let C := SolidStiffness.C m in
  let x := entry e in
  SolidStiffness.calcStress m e s =
  Some ([ tadd (tadd (tmul (C 0%nat) (x 0%nat)) (tmul (C 1%nat) (x 1%nat)))
               (tmul (C 2%nat) (x 2%nat));
          tadd (tadd (tmul (C 1%nat) (x 0%nat)) (tmul (C 3%nat) (x 1%nat)))
               (tmul (C 4%nat) (x 2%nat));
          tadd (tadd (tmul (C 2%nat) (x 0%nat)) (tmul (C 4%nat) (x 1%nat)))
               (tmul (C 5%nat) (x 2%nat));
          tmul (SolidStiffness.G23 m) (x 3%nat);
          tmul (SolidStiffness.G13 m) (x 4%nat);
          tmul (SolidStiffness.G12 m) (x 5%nat) ] ++ drop 6 s).
Proof.
  intros He Hs C x. subst C x.
  destruct (six_entries e He) as (e0&e1&e2&e3&e4&e5&re&->).
  destruct (six_entries s Hs) as (s0&s1&s2&s3&s4&s5&rs&->).
  unfold SolidStiffness.calcStress. simpl.
  repeat (step_method; simpl). reflexivity.
Qed.

End Orthotropic.

(** Normal and shear parts are decoupled in the legacy law: the three
    normal stresses [calcStress] writes depend on the three normal strains
    only, and each shear stress is its own modulus times its own shear
    strain ([G23·e[3]], [G13·e[4]], [G12·e[5]]). *)
Theorem orthotropic_law_decouples_shear `{Scalar}
    (m : SolidStiffness.SolidStiffness) (e e' s : list TacsScalar) :
  (6 ≤ length e)%nat → (6 ≤ length e')%nat → (6 ≤ length s)%nat →
  take 3 e = take 3 e' →
  ∃ s1 s2,
    SolidStiffness.calcStress m e s = Some s1 ∧
    SolidStiffness.calcStress m e' s = Some s2 ∧
    take 3 s1 = take 3 s2 ∧
    s1 !! 3%nat = Some (tmul (SolidStiffness.G23 m) (entry e 3)) ∧
    s1 !! 4%nat = Some (tmul (SolidStiffness.G13 m) (entry e 4)) ∧
    s1 !! 5%nat = Some (tmul (SolidStiffness.G12 m) (entry e 5)) ∧
    confined 6 s s1.
Proof.
  intros He He' Hs Hn. eexists _, _.
  rewrite !calcStress_value by done.
  do 2 (split; [reflexivity|]).
  destruct (six_entries e He) as (e0&e1&e2&e3&e4&e5&re&->).
  destruct (six_entries e' He') as (d0&d1&d2&d3&d4&d5&rd&->).
  injection Hn as -> -> ->.
  repeat (split; [reflexivity|]).
  split; simpl; [|done]. rewrite length_drop. lia.
Qed.

Lemma orthotropic_law_decouples_shear_witness :
  ∃ s1 s2,
    @SolidStiffness.calcStress real_scalar Samples.ortho Analysis.strain
      (Samples.zeros 6) = Some s1 ∧
    @SolidStiffness.calcStress real_scalar Samples.ortho
      [1; 2; 0; 5; 6; 7]%R (Samples.zeros 6) = Some s2 ∧
    take 3 s1 = take 3 s2 ∧
    s1 !! 3%nat = Some (@tmul real_scalar 2%R
                          (@entry real_scalar Analysis.strain 3)) ∧
    s1 !! 4%nat = Some (@tmul real_scalar 3%R
                          (@entry real_scalar Analysis.strain 4)) ∧
    s1 !! 5%nat = Some (@tmul real_scalar 4%R
                          (@entry real_scalar Analysis.strain 5)) ∧
    @confined real_scalar 6 (Samples.zeros 6) s1.
Proof.
  apply (@orthotropic_law_decouples_shear real_scalar Samples.ortho
           Analysis.strain [1; 2; 0; 5; 6; 7]%R (Samples.zeros 6));
    [simpl; lia | simpl; lia | simpl; lia | reflexivity].
Defined.

(** The legacy law is a special case of the packed law: in exact
    arithmetic, [SolidStiffness::calcStress] returns the stress that
    [TACSSolidConstitutive::evalStress] returns on a property source whose
    21 stiffness entries carry the normal block of [C] in the matrix
    entries (0,0) .. (2,2), the shear moduli [G23], [G13], [G12] on the
    diagonal entries (3,3), (4,4), (5,5), and zero elsewhere. *)
Theorem legacy_law_is_the_packed_law
    (m : @SolidStiffness.SolidStiffness real_scalar)
    (self : @TACSSolidConstitutive real_scalar)
    (props : @TACSMaterialProperties real_scalar)
    (elemIndex : Z) (pt : list double) (X e s : list R) :
  properties self = Some props →
  (∀ k, (k < 21)%nat →
     evalTangentStiffness3D props k = @SolidStiffness.packed real_scalar m k) →
  length e = 6%nat → length s = 6%nat →
  @SolidStiffness.calcStress real_scalar m e s
  = fst <$> @evalStress real_scalar elemIndex pt X e s self.
Proof.
  intros Hp Hk He Hs.
  assert (He6 : (6 ≤ @length (@TacsScalar real_scalar) e)%nat).
  { change (6 ≤ length e)%nat. lia. }
  assert (Hs6 : (6 ≤ @length (@TacsScalar real_scalar) s)%nat).
  { change (6 ≤ length s)%nat. lia. }
  rewrite (evalStress_six self props) by done.
  rewrite (@calcStress_value real_scalar m e s He6 Hs6).
  destruct (exactly_six e He) as (e0&e1&e2&e3&e4&e5&->).
  destruct (exactly_six s Hs) as (s0&s1&s2&s3&s4&s5&->).
  rewrite symm_apply_rows. simpl. f_equal.
  cbv [sum6 nth].
  repeat match goal with
  | |- context [evalTangentStiffness3D props ?k] =>
      rewrite (Hk k) by lia
  end.
  cbv [SolidStiffness.packed]. real_entries.
  repeat (apply (f_equal2 cons); [ring|]). reflexivity.
Qed.

Lemma legacy_law_is_the_packed_law_witness :
  @SolidStiffness.calcStress real_scalar Samples.ortho Analysis.strain
    (Samples.zeros 6)
  = fst <$> @evalStress real_scalar 0 [] [] Analysis.strain
              (Samples.zeros 6) Samples.ortho_solid.
Proof.
  apply (legacy_law_is_the_packed_law Samples.ortho Samples.ortho_solid
           Samples.ortho_props 0 [] [] Analysis.strain (Samples.zeros 6));
    [reflexivity | intros k Hk; reflexivity | reflexivity | reflexivity].
Defined.
